(** * ezdxf.dxf2html: a structured HTML view of the DXF tags

    A shallow embedding of [src/ezdxf/dxf2html.py] and the properties of
    its renderers.

    Conventions of the embedding.
    - Python [str] is [string]; only ASCII characters are given a meaning
      ([escape], the [format] mini-language), every other byte is carried
      through unchanged.
    - A Python call either returns, raises, or leaves the fragment of
      Python that is modelled here: [result].
    - The collaborators that live outside the module ([ezdxf.tags.tag_type],
      [str.upper], [os.path], the [quote] flag of [ezdxf.c23.escape]) are
      the fields of the class [Collaborators]. *)

From Stdlib Require Import String Ascii List ZArith Bool Lia.
From Stdlib Require Import DecimalString DecimalPos DecimalZ.
Import ListNotations.

Local Open Scope string_scope.
Local Open Scope Z_scope.

(** ** Python values and results *)

Inductive exn : Type :=
| ValueError
| IndexError
| KeyError (key : string)
| OtherError (name : string).

Inductive result (A : Type) : Type :=
| Ok (a : A)
| Raise (e : exn)
| Unmodelled.

Arguments Ok {A} a.
Arguments Raise {A} e.
Arguments Unmodelled {A}.

Definition bind {A B : Type} (m : result A) (k : A -> result B) : result B :=
  match m with
  | Ok a => k a
  | Raise e => Raise e
  | Unmodelled => Unmodelled
  end.

Notation "x <- m ;; k" := (bind m (fun x => k))
  (at level 61, m at next level, right associativity).

Definition is_ok {A : Type} (m : result A) : bool :=
  match m with Ok _ => true | _ => false end.

(** [[f(x) for x in xs]], and a generator expression that is consumed to
    its end: the elements are computed from left to right and the first
    exception ends the loop. *)
Fixpoint for_each {A B : Type} (f : A -> result B) (xs : list A)
  : result (list B) :=
  match xs with
  | [] => Ok []
  | x :: xs' => y <- f x ;; ys <- for_each f xs' ;; Ok (y :: ys)
  end.

(** ** Strings *)

(** The literals of the Python source are transcribed with ['] standing
    for the double quote and the two characters [\n] for a line feed;
    [py] turns the transcription into the string the Python literal
    denotes.  No literal of the module holds a single quote or another
    backslash. *)
Fixpoint py (s : string) : string :=
  match s with
  | EmptyString => EmptyString
  | String c rest =>
      if Ascii.eqb c "'" then String (ascii_of_nat 34) (py rest)
      else if Ascii.eqb c (ascii_of_nat 92) then
        match rest with
        | String "n" rest' => String (ascii_of_nat 10) (py rest')
        | _ => String c (py rest)
        end
      else String c (py rest)
  end.

(** [sep.join(xs)] *)
Fixpoint join (sep : string) (xs : list string) : string :=
  match xs with
  | [] => EmptyString
  | [x] => x
  | x :: xs' => x ++ sep ++ join sep xs'
  end.

(** [str(n)] for an [int] *)
Definition str_int (n : Z) : string := NilZero.string_of_int (Z.to_int n).

(** [needle in hay] *)
Fixpoint contains (needle hay : string) : bool :=
  String.prefix needle hay ||
  match hay with
  | EmptyString => false
  | String _ rest => contains needle rest
  end.

(** ** [str.format]

    The fragment of the format mini-language the module's templates are
    written in: literal text, the doubled braces, the automatically
    numbered field [{}] and keyword fields [{name}].  A field with a
    conversion, a format specification, an attribute or index access, or
    an explicit number is outside the fragment. *)

Inductive fstate : Type :=
| Text                      (* in literal text *)
| OpenBrace                 (* just after a [{] *)
| CloseBrace                (* just after a [}] in literal text *)
| InField (name : string).  (* inside [{name], before the [}] *)

Definition is_alpha (c : ascii) : bool :=
  let n := nat_of_ascii c in
  ((65 <=? n) && (n <=? 90) || (97 <=? n) && (n <=? 122) || (n =? 95))%nat.

Definition is_digit (c : ascii) : bool :=
  let n := nat_of_ascii c in ((48 <=? n) && (n <=? 57))%nat.

Fixpoint lookup (key : string) (kwargs : list (string * string))
  : option string :=
  match kwargs with
  | [] => None
  | (k, v) :: rest => if String.eqb k key then Some v else lookup key rest
  end.

Section Format.
Variable args : list string.
Variable kwargs : list (string * string).

Definition emit (c : ascii) (m : result string) : result string :=
  s <- m ;; Ok (String c s).

Definition subst (v : result string) (m : result string) : result string :=
  x <- v ;; s <- m ;; Ok (x ++ s).

Definition positional (n : nat) : result string :=
  match nth_error args n with
  | Some v => Ok v
  | None => Raise IndexError
  end.

Definition keyword (name : string) : result string :=
  match lookup name kwargs with
  | Some v => Ok v
  | None => Raise (KeyError name)
  end.

Fixpoint format_from (st : fstate) (auto : nat) (tpl : string)
  : result string :=
  match tpl with
  | EmptyString =>
      match st with
      | Text => Ok EmptyString
      | _ => Raise ValueError
      end
  | String c rest =>
      match st with
      | Text =>
          if Ascii.eqb c "{" then format_from OpenBrace auto rest
          else if Ascii.eqb c "}" then format_from CloseBrace auto rest
          else emit c (format_from Text auto rest)
      | OpenBrace =>
          if Ascii.eqb c "{" then emit c (format_from Text auto rest)
          else if Ascii.eqb c "}" then
            subst (positional auto) (format_from Text (S auto) rest)
          else if is_alpha c then
            format_from (InField (String c EmptyString)) auto rest
          else Unmodelled
      | CloseBrace =>
          if Ascii.eqb c "}" then emit c (format_from Text auto rest)
          else Raise ValueError
      | InField name =>
          if Ascii.eqb c "}" then
            subst (keyword name) (format_from Text auto rest)
          else if is_alpha c || is_digit c then
            format_from (InField (name ++ String c EmptyString)) auto rest
          else Unmodelled
      end
  end.

Definition format (tpl : string) : result string :=
  format_from Text 0 tpl.
End Format.



(** ** The collaborators outside the module *)

(** What [ezdxf.tags.tag_type] returns: a Python type (or cast function). *)
Inductive pytype : Type :=
| Tint
| Tfloat
| Tustr
| Tother (name : string).

Definition pytype_eqb (a b : pytype) : bool :=
  match a, b with
  | Tint, Tint | Tfloat, Tfloat | Tustr, Tustr => true
  | Tother x, Tother y => String.eqb x y
  | _, _ => false
  end.

Definition pytype_name (t : pytype) : string :=
  match t with
  | Tint => "int"
  | Tfloat => "float"
  | Tustr => "ustr"
  | Tother n => n
  end.

Class Collaborators : Type := {
  (** [str.upper] *)
  upper : string -> string;
  (** [ezdxf.tags.tag_type]: the type of the values of a group code; it
      may raise for a code it does not know. *)
  tag_type : Z -> result pytype;
  (** whether [ezdxf.c23.escape] also replaces the quote characters *)
  escape_quote : bool;
  (** [os.path.basename] and [os.path.splitext] *)
  basename : string -> string;
  splitext : string -> string * string
}.

(** Modelled from the spec: [ezdxf.c23.escape] is not part of the module;
    it is the HTML escaping of the Python library ([html.escape]), which
    replaces [&], [<] and [>] by [&amp;], [&lt;] and [&gt;] and, when
    [quote] is set, the double and the single quote by [&quot;] and
    [&#x27;]. *)
Definition escape_char (quote : bool) (c : ascii) : string :=
  if Ascii.eqb c "&" then "&amp;"
  else if Ascii.eqb c "<" then "&lt;"
  else if Ascii.eqb c ">" then "&gt;"
  else if quote && Ascii.eqb c (ascii_of_nat 34) then "&quot;"
  else if quote && Ascii.eqb c "'" then "&#x27;"
  else String c EmptyString.

Fixpoint html_escape (quote : bool) (s : string) : string :=
  match s with
  | EmptyString => EmptyString
  | String c rest => escape_char quote c ++ html_escape quote rest
  end.

(** ** The document model

    The classes of the document are not part of the module either; the
    model has the attributes the renderers read. *)

(** A tag value is an [int], a [float] or a string.  Floating point
    numbers are not modelled: a [float] is carried as the text [str]
    gives for it, the only thing the renderers ask of it. *)
Inductive pyvalue : Type :=
| VInt (n : Z)
| VFloat (repr : string)
| VStr (s : string).

Inductive pynumber : Type :=
| NInt (n : Z)
| NFloat (repr : string).

(** [ustr(value)] *)
Definition ustr (v : pyvalue) : string :=
  match v with
  | VInt n => str_int n
  | VFloat r => r
  | VStr s => s
  end.

Definition repr_number (x : pynumber) : string :=
  match x with
  | NInt n => str_int n
  | NFloat r => r
  end.

(** [ustr(point)] for a tuple of numbers *)
Definition ustr_tuple (p : list pynumber) : string :=
  match p with
  | [x] => "(" ++ repr_number x ++ ",)"
  | _ => "(" ++ join ", " (map repr_number p) ++ ")"
  end.

Record DXFTag : Type := { code : Z; value : pyvalue }.

(** Modelled from the spec: a header variable has a value that is either
    a scalar or a point (a tuple of numbers) and the group code of the tag
    it was read from. *)
Inductive HeaderVar : Type :=
| ScalarVar (code : Z) (value : pyvalue)
| PointVar (code : Z) (point : list pynumber).

Definition ispoint (v : HeaderVar) : bool :=
  match v with PointVar _ _ => true | ScalarVar _ _ => false end.

Definition getpoint (v : HeaderVar) : result (list pynumber) :=
  match v with PointVar _ p => Ok p | ScalarVar _ _ => Unmodelled end.

Definition hdrvar_value (v : HeaderVar) : result pyvalue :=
  match v with ScalarVar _ x => Ok x | PointVar _ _ => Unmodelled end.

Definition hdrvar_code (v : HeaderVar) : Z :=
  match v with ScalarVar c _ => c | PointVar c _ => c end.

Record Entity : Type := {
  dxftype : string;            (* [entity.dxftype()] *)
  tags : list DXFTag           (* [entity.tags] *)
}.

Record Table : Type := {
  table_name : string;         (* [table.name] *)
  _table_header : list DXFTag; (* [table._table_header] *)
  table_entries : list Entity  (* [iter(table)] *)
}.

Record BlockLayout : Type := {
  block_name : string;         (* [block_layout.name] *)
  block : Entity;              (* [block_layout.block] *)
  block_entities : list Entity;(* [iter(block_layout)] *)
  endblk : Entity              (* [block_layout.endblk] *)
}.

(** What a section object holds.  The renderers choose the attribute they
    read by the section's name alone; reading one the object does not have
    leaves the model. *)
Inductive SectionData : Type :=
| HeaderData (hdrvars : list (string * HeaderVar))
| EntityData (entities : list Entity)
| TablesData (tables : list Table)
| BlocksData (blocks : list BlockLayout)
| TagsData (tags : list DXFTag).

Record Section : Type := {
  section_name : string;       (* [section.name] *)
  section_data : SectionData
}.

Record Drawing : Type := {
  filename : option string;    (* [dwg.filename] *)
  sections : list Section      (* [dwg.sections] *)
}.

Definition section_hdrvars (s : Section) : result (list (string * HeaderVar)) :=
  match section_data s with HeaderData h => Ok h | _ => Unmodelled end.

Definition section_entities (s : Section) : result (list Entity) :=
  match section_data s with EntityData l => Ok l | _ => Unmodelled end.

Definition section_tables (s : Section) : result (list Table) :=
  match section_data s with TablesData l => Ok l | _ => Unmodelled end.

Definition section_blocks (s : Section) : result (list BlockLayout) :=
  match section_data s with BlocksData l => Ok l | _ => Unmodelled end.

Definition section_tags (s : Section) : result (list DXFTag) :=
  match section_data s with TagsData l => Ok l | _ => Unmodelled end.

(** ** The module *)

Definition HTML_TEMPLATE : string :=
  py "<!DOCTYPE html>\n<html>\n<head>\n<meta charset='utf-8'>\n"
  ++ py "<link rel='stylesheet' href='dxf2html.css'>\n"
  ++ py "<script src='dxf2html.js'></script>\n<title>{name}.dxf</title>\n"
  ++ py "</head>\n<body>\n<h1>DXF-FILE: {name}.dxf</h1>\n<div id='toc'>\n"
  ++ py "{toc}\n<div>\n<div id='dxf-file'>\n{dxf_file}\n</div>\n</body>\n".

(** [range(a, b)] *)
Definition range (a b : Z) : list Z :=
  map (fun i => a + Z.of_nat i) (seq 0 (Z.to_nat (b - a))).

(** [code in codes], for a tuple or a frozenset of integers *)
Definition mem (x : Z) (codes : list Z) : bool := existsb (Z.eqb x) codes.

(* Handle definitions *)
Definition _HANDLE_CODES : list Z := [5; 105] ++ range 320 330.
Definition HANDLE_DEFINITIONS : list Z := _HANDLE_CODES.

(* Handle links *)
Definition _HANDLE_POINTERS : list Z := range 330 370 ++ [480; 481; 1005].
Definition HANDLE_LINKS : list Z := _HANDLE_POINTERS.

(* Tag groups *)
Definition GENERAL_MARKER : Z := 0.
Definition SUBCLASS_MARKER : Z := 100.
Definition APP_DATA_MARKER : Z := 102.
Definition EXT_DATA_MARKER : Z := 1001.
Definition GROUP_MARKERS : list Z :=
  [GENERAL_MARKER; SUBCLASS_MARKER; APP_DATA_MARKER; EXT_DATA_MARKER].
Definition MARKER_TEMPLATE : string :=
  py "<div class='tag-group-marker'>{tag}</div>".

Definition TAG_TEMPLATE : string :=
  py "<div class='dxf-tag'><span class='tag-code'>{code}</span> <span class='var-type'>{type}</span> <span class='tag-value'>{value}</span></div>".
Definition TAG_TEMPLATE_HANDLE_DEF : string :=
  py "<div class='dxf-tag'><span id='{value}' class='tag-code'>{code}</span> <span class='var-type'>{type}</span> <span class='tag-value'>{value}</span></div>".
Definition TAG_TEMPLATE_HANDLE_LINK : string :=
  py "<div class='dxf-tag'><span class='tag-code'>{code} {type}</span> <a class='tag-value' href='#{value}'>{value}</a></div>".
Definition ENTITY_TEMPLATE : string :=
  py "<div class='dxf-entity'><h3>{name}</h3>\n{tags}\n</div>".
Definition TOC_ENTRY_TPL : string :=
  py "<li><a href='#{link}' >{name}</a></li>".
Definition TOC_TPL : string :=
  py "<h2>Table of Contents</h2>\n<ul>\n{}\n</ul>".

Definition SECTION_ID : string := "section_{}".

Definition TAG_TYPES : list (pytype * string) :=
  [(Tint, "<int>"); (Tfloat, "<float>"); (Tustr, "<str>")].

(** [enumerate(xs)] *)
Definition enumerate {A : Type} (xs : list A) : list (Z * A) :=
  combine (map Z.of_nat (seq 0 (length xs))) xs.

(** [seq[i]] for a tuple, with Python's negative indices *)
Definition getitem {A : Type} (xs : list A) (i : Z) : result A :=
  let n := Z.of_nat (length xs) in
  let j := if i <? 0 then i + n else i in
  if (0 <=? j) && (j <? n) then
    match nth_error xs (Z.to_nat j) with
    | Some x => Ok x
    | None => Raise IndexError
    end
  else Raise IndexError.

Section Renderer.
Context `{Collaborators}.

Definition escape (s : string) : string := html_escape escape_quote s.

Definition get_name (dwg : Drawing) : string :=
  match filename dwg with
  | None => "unknown"
  | Some f => fst (splitext (basename f))
  end.

Definition create_section_html_template (name : string) (index : Z)
  : result string :=
  prev_id <- format [str_int (index - 1)] [] SECTION_ID ;;
  this_id <- format [str_int index] [] SECTION_ID ;;
  next_id <- format [str_int (index + 1)] [] SECTION_ID ;;
  format []
    [("name", upper name); ("this_id", this_id);
     ("prev_id", prev_id); ("next_id", next_id)]
    (py "<div id='{this_id}' class='dxf-section'><h2>SECTION: {name}</h2>\n<div><a href='#{prev_id}'>previous</a> "
     ++ py "<a href='#{next_id}'>next</a></div>\n{{}}\n</div>\n").

Definition tag_type_str (code : Z) : result string :=
  t <- tag_type code ;;
  match find (fun kv => pytype_eqb (fst kv) t) TAG_TYPES with
  | Some kv => Ok (snd kv)
  | None => Raise (KeyError (pytype_name t))
  end.

Definition var2str (hdrvar : HeaderVar) : result string :=
  if ispoint hdrvar then
    p <- getpoint hdrvar ;; Ok (ustr_tuple p)
  else
    v <- hdrvar_value hdrvar ;; Ok (ustr v).

Definition vartype (hdrvar : HeaderVar) : result string :=
  if ispoint hdrvar then
    p <- getpoint hdrvar ;;
    let dim := Z.of_nat (length p) - 2 in
    getitem ["<point 2D>"; "<point 3D>"] dim
  else
    tag_type_str (hdrvar_code hdrvar).

(** The element of the list comprehension of [hdrvars2html]: the row of
    one item of [hdrvars.items()]. *)
Definition hdrvar2html (item : string * HeaderVar) : result string :=
  let (name, value) := item in
  s <- var2str value ;;
  t <- vartype value ;;
  format [] [("code", name); ("value", escape s); ("type", escape t)]
    TAG_TEMPLATE.

Definition hdrvars2html (hdrvars : list (string * HeaderVar))
  : result string :=
  varstrings <- for_each hdrvar2html hdrvars ;;
  format [join (py "\n") varstrings] []
    (py "<div id='dxf-header' class='dxf-header'>\n{}\n</div>").

Definition tag2html (tag : DXFTag) : result string :=
  let tpl :=
    if mem (code tag) HANDLE_DEFINITIONS then TAG_TEMPLATE_HANDLE_DEF
    else if mem (code tag) HANDLE_LINKS then TAG_TEMPLATE_HANDLE_LINK
    else TAG_TEMPLATE in
  t <- tag_type_str (code tag) ;;
  format []
    [("code", str_int (code tag)); ("value", escape (ustr (value tag)));
     ("type", escape t)]
    tpl.

Definition group_marker (tag : DXFTag) (tag_html : string) : result string :=
  if negb (mem (code tag) GROUP_MARKERS) then Ok tag_html
  else format [] [("tag", tag_html)] MARKER_TEMPLATE.

Definition tags2html (tags : list DXFTag) : result string :=
  tag_strings <-
    for_each (fun tag => h <- tag2html tag ;; group_marker tag h) tags ;;
  format [join (py "\n") tag_strings] []
    (py "<div class='dxf-tags'>\n{}\n</div>").

Definition entity2html (entity : Entity) : result string :=
  t <- tags2html (tags entity) ;;
  format [] [("name", dxftype entity); ("tags", t)] ENTITY_TEMPLATE.

Definition entities2html (entities : list Entity) : result string :=
  entity_strings <- for_each entity2html entities ;;
  format [join (py "\n") entity_strings] []
    (py "<div class='dxf-entities'>\n{}\n</div>").

(* TODO: table navigation bar *)
Definition create_table_navigation (table_section : list Table) : string :=
  EmptyString.

Definition table2html (navigation : string) (table : Table) : result string :=
  h <- tags2html (_table_header table) ;;
  header <- format [] [("name", "TABLE HEADER"); ("tags", h)] ENTITY_TEMPLATE ;;
  entries <- entities2html (table_entries table) ;;
  format []
    [("name", upper (table_name table)); ("nav", navigation);
     ("header", header); ("entries", entries)]
    (py "<div class='dxf-block'>\n<h2>{name}</h2>\n{nav}\n{header}\n{entries}\n</div>").

Definition tables2html (tables : list Table) : result string :=
  let navigation := create_table_navigation tables in
  tables_html_strings <- for_each (table2html navigation) tables ;;
  format [join (py "\n") tables_html_strings] []
    (py "<div id='dxf-tables' class='dxf-tables'>{}</div>").

Definition block2html (block_layout : BlockLayout) : result string :=
  block_html <- entity2html (block block_layout) ;;
  entities_html <- entities2html (block_entities block_layout) ;;
  endblk_html <- entity2html (endblk block_layout) ;;
  format []
    [("name", block_name block_layout); ("block", block_html);
     ("entities", entities_html); ("endblk", endblk_html)]
    (py "<div class='dxf-block'>\n<h2>{name}</h2>\n{block}\n{entities}\n{endblk}\n</div>").

Definition blocks2html (blocks : list BlockLayout) : result string :=
  block_strings <- for_each block2html blocks ;;
  format [join (py "\n") block_strings] []
    (py "<div id='dxf-blocks' class='dxf-blocks'>\n{}\n</div>").

Definition section2html (section : Section) (section_template : string)
  : result string :=
  if String.eqb (section_name section) "header" then
    hv <- section_hdrvars section ;;
    body <- hdrvars2html hv ;;
    format [body] [] section_template
  else if existsb (String.eqb (section_name section))
            ["classes"; "objects"; "entities"] then
    es <- section_entities section ;;
    body <- entities2html es ;;
    format [body] [] section_template
  else if String.eqb (section_name section) "tables" then
    ts <- section_tables section ;;
    body <- tables2html ts ;;
    format [body] [] section_template
  else if String.eqb (section_name section) "blocks" then
    bs <- section_blocks section ;;
    body <- blocks2html bs ;;
    format [body] [] section_template
  else
    ts <- section_tags section ;;
    body <- tags2html ts ;;
    format [body] [] section_template.

(** The loop appends one string per section, in the order of
    [enumerate(dwg.sections)]. *)
Definition sections2html (dwg : Drawing) : result string :=
  sections_html <-
    for_each
      (fun '(index, section) =>
         section_template <-
           create_section_html_template (section_name section) index ;;
         section2html section section_template)
      (enumerate (sections dwg)) ;;
  format [join (py "\n") sections_html] []
    (py "<div class='dxf-sections'>\n{}\n</div>").

Definition sections_toc_as_html (dwg : Drawing) : result string :=
  toc_entries <-
    for_each
      (fun '(index, section) =>
         link <- format [str_int index] [] SECTION_ID ;;
         format [] [("name", upper (section_name section)); ("link", link)]
           TOC_ENTRY_TPL)
      (enumerate (sections dwg)) ;;
  format [join (py "\n") toc_entries] [] TOC_TPL.

Definition dxf2html (dwg : Drawing) : result string :=
  dxf_file <- sections2html dwg ;;
  toc <- sections_toc_as_html dwg ;;
  format [] [("name", get_name dwg); ("dxf_file", dxf_file); ("toc", toc)]
    HTML_TEMPLATE.

End Renderer.

(** ** What the templates yield

    The rows and blocks below are the module's templates with their
    fields filled in; the theorems state the renderers' results with
    them. *)

(** [TAG_TEMPLATE] *)
Definition plain_row (code type value : string) : string :=
  py "<div class='dxf-tag'><span class='tag-code'>" ++ code
  ++ py "</span> <span class='var-type'>" ++ type
  ++ py "</span> <span class='tag-value'>" ++ value ++ py "</span></div>".

(** [TAG_TEMPLATE_HANDLE_DEF]: the value is the [id] of the code span. *)
Definition handle_def_row (code type value : string) : string :=
  py "<div class='dxf-tag'><span id='" ++ value ++ py "' class='tag-code'>"
  ++ code ++ py "</span> <span class='var-type'>" ++ type
  ++ py "</span> <span class='tag-value'>" ++ value ++ py "</span></div>".

(** [TAG_TEMPLATE_HANDLE_LINK]: the value is the target and the text of
    a hyperlink. *)
Definition handle_link_row (code type value : string) : string :=
  py "<div class='dxf-tag'><span class='tag-code'>" ++ code ++ " " ++ type
  ++ py "</span> <a class='tag-value' href='#" ++ value ++ py "'>" ++ value
  ++ py "</a></div>".

(** [MARKER_TEMPLATE] *)
Definition marker_row (row : string) : string :=
  py "<div class='tag-group-marker'>" ++ row ++ py "</div>".

Definition tags_block (rows : list string) : string :=
  py "<div class='dxf-tags'>\n" ++ join (py "\n") rows ++ py "\n</div>".

Definition header_block (rows : list string) : string :=
  py "<div id='dxf-header' class='dxf-header'>\n" ++ join (py "\n") rows
  ++ py "\n</div>".

(** [ENTITY_TEMPLATE] *)
Definition entity_block (name tags_html : string) : string :=
  py "<div class='dxf-entity'><h3>" ++ name ++ py "</h3>\n" ++ tags_html
  ++ py "\n</div>".

Definition table_block (name nav header entries : string) : string :=
  py "<div class='dxf-block'>\n<h2>" ++ name ++ py "</h2>\n" ++ nav
  ++ py "\n" ++ header ++ py "\n" ++ entries ++ py "\n</div>".

Definition block_block (name block_html entities_html endblk_html : string)
  : string :=
  py "<div class='dxf-block'>\n<h2>" ++ name ++ py "</h2>\n" ++ block_html
  ++ py "\n" ++ entities_html ++ py "\n" ++ endblk_html ++ py "\n</div>".

(** [TOC_ENTRY_TPL] *)
Definition toc_entry (link name : string) : string :=
  py "<li><a href='#" ++ link ++ py "' >" ++ name ++ py "</a></li>".

(** [TOC_TPL] *)
Definition toc_block (entries : list string) : string :=
  py "<h2>Table of Contents</h2>\n<ul>\n" ++ join (py "\n") entries
  ++ py "\n</ul>".

(** [SECTION_ID] *)
Definition section_id (index : Z) : string := "section_" ++ str_int index.

(** The wrapper of a section, still a template: the body goes in its one
    field. *)
Definition section_template (name : string) (index : Z) : string :=
  py "<div id='" ++ section_id index
  ++ py "' class='dxf-section'><h2>SECTION: " ++ name
  ++ py "</h2>\n<div><a href='#" ++ section_id (index - 1)
  ++ py "'>previous</a> <a href='#" ++ section_id (index + 1)
  ++ py "'>next</a></div>\n{}\n</div>\n".

(** The wrapper with the body in place. *)
Definition section_block (name : string) (index : Z) (body : string) : string :=
  py "<div id='" ++ section_id index
  ++ py "' class='dxf-section'><h2>SECTION: " ++ name
  ++ py "</h2>\n<div><a href='#" ++ section_id (index - 1)
  ++ py "'>previous</a> <a href='#" ++ section_id (index + 1)
  ++ py "'>next</a></div>\n" ++ body ++ py "\n</div>\n".

(** [html] has a hyperlink to the anchor [target]. *)
Definition has_link (html target : string) : Prop :=
  exists pre post, html = pre ++ py "<a href='#" ++ target ++ py "'>" ++ post.

(** [html] has an element whose [id] is [anchor]. *)
Definition has_anchor (html anchor : string) : Prop :=
  exists pre post, html = pre ++ py " id='" ++ anchor ++ py "'" ++ post.

(** ** Text that is safe to put between tags *)

Definition entity_follows (rest : string) : bool :=
  existsb (fun name => String.prefix name rest)
    ["amp;"; "lt;"; "gt;"; "quot;"; "#x27;"].

(** No [<], no [>], and every [&] starts a character reference. *)
Fixpoint markup_free (s : string) : bool :=
  match s with
  | EmptyString => true
  | String c rest =>
      if Ascii.eqb c "<" || Ascii.eqb c ">" then false
      else if Ascii.eqb c "&" then entity_follows rest && markup_free rest
      else markup_free rest
  end.

(** Text without a brace is literal text for [str.format]. *)
Fixpoint brace_free (s : string) : bool :=
  match s with
  | EmptyString => true
  | String c rest =>
      negb (Ascii.eqb c "{") && negb (Ascii.eqb c "}") && brace_free rest
  end.

(** Every character of [s] satisfies [p]. *)
Fixpoint string_forall (p : ascii -> bool) (s : string) : bool :=
  match s with
  | EmptyString => true
  | String c rest => p c && string_forall p rest
  end.

(** The characters [escape] leaves alone. *)
Definition is_plain (c : ascii) : bool :=
  negb (Ascii.eqb c "&" || Ascii.eqb c "<" || Ascii.eqb c ">"
        || Ascii.eqb c (ascii_of_nat 34) || Ascii.eqb c "'").

(** The characters of the text of an [int]. *)
Definition is_int_char (c : ascii) : bool := is_digit c || Ascii.eqb c "-".

(** ** The tags a rendering goes through *)

Definition entities_tags (entities : list Entity) : list DXFTag :=
  flat_map tags entities.

Definition table_tags (table : Table) : list DXFTag :=
  _table_header table ++ entities_tags (table_entries table).

Definition block_tags (b : BlockLayout) : list DXFTag :=
  tags (block b) ++ entities_tags (block_entities b) ++ tags (endblk b).

(** The tag records [section2html] hands to [tags2html], in the order of
    the rendering. *)
Definition section_tags_rendered (s : Section) : list DXFTag :=
  match section_data s with
  | HeaderData _ => []
  | EntityData es =>
      if existsb (String.eqb (section_name s))
           ["classes"; "objects"; "entities"] then entities_tags es else []
  | TablesData ts =>
      if String.eqb (section_name s) "tables" then flat_map table_tags ts
      else []
  | BlocksData bs =>
      if String.eqb (section_name s) "blocks" then flat_map block_tags bs
      else []
  | TagsData ts =>
      if String.eqb (section_name s) "header"
         || existsb (String.eqb (section_name s))
              ["classes"; "objects"; "entities"; "tables"; "blocks"]
      then [] else ts
  end.

Definition tags_rendered (dwg : Drawing) : list DXFTag :=
  flat_map section_tags_rendered (sections dwg).

(** The entities of the entity sections of a document. *)
Definition entities_of (dwg : Drawing) : list Entity :=
  flat_map (fun s => match section_data s with
                     | EntityData es => es
                     | _ => []
                     end) (sections dwg).

(** The group code of the tag has a type label. *)
Definition classified `{Collaborators} (tag : DXFTag) : Prop :=
  is_ok (tag_type_str (code tag)) = true.

(** ** An instance of the collaborators

    Used to run the renderers on examples: [upper] on ASCII letters, the
    type table of the common group codes (an unknown code raises), the
    quote characters escaped, and [posixpath]. *)

Definition ascii_upper (s : string) : string :=
  string_of_list_ascii
    (map (fun c =>
            let n := nat_of_ascii c in
            if ((97 <=? n) && (n <=? 122))%nat then ascii_of_nat (n - 32)
            else c)
       (list_ascii_of_string s)).

Definition example_tag_type (code : Z) : result pytype :=
  if (0 <=? code) && (code <? 10) then Ok Tustr
  else if (10 <=? code) && (code <? 60) then Ok Tfloat
  else if (60 <=? code) && (code <? 100) then Ok Tint
  else if (100 <=? code) && (code <? 106) then Ok Tustr
  else if (320 <=? code) && (code <? 370) then Ok Tustr
  else if (1000 <=? code) && (code <? 1010) then Ok Tustr
  else Raise ValueError.

(** [s.rfind(c)] *)
Definition rfind (c : ascii) (s : string) : Z :=
  (fix go (s : string) (i last : Z) : Z :=
     match s with
     | EmptyString => last
     | String d rest => go rest (i + 1) (if Ascii.eqb d c then i else last)
     end) s 0 (-1).

(** [s[i:j]] for [0 <= i <= j] *)
Definition slice (s : string) (i j : Z) : string :=
  substring (Z.to_nat i) (Z.to_nat (j - i)) s.

Definition posix_basename (p : string) : string :=
  let i := rfind "/" p + 1 in
  slice p i (Z.of_nat (String.length p)).

Definition posix_splitext (p : string) : string * string :=
  let n := Z.of_nat (String.length p) in
  let sepIndex := rfind "/" p in
  let dotIndex := rfind "." p in
  if (dotIndex >? sepIndex)
     && negb (forallb (Ascii.eqb ".")
                (list_ascii_of_string (slice p (sepIndex + 1) dotIndex)))
  then (slice p 0 dotIndex, slice p dotIndex n)
  else (p, EmptyString).

Definition example_collaborators : Collaborators := {|
  upper := ascii_upper;
  tag_type := example_tag_type;
  escape_quote := true;
  basename := posix_basename;
  splitext := posix_splitext
|}.

(** ** Example documents *)

Definition dxftag (c : Z) (v : pyvalue) : DXFTag :=
  {| code := c; value := v |}.

Definition line_tags : list DXFTag :=
  [dxftag 0 (VStr "LINE"); dxftag 5 (VStr "2A"); dxftag 330 (VStr "1F");
   dxftag 100 (VStr "AcDbLine"); dxftag 10 (VFloat "1.0"); dxftag 62 (VInt 7);
   dxftag 1 (VStr "a<b>&c")].

Definition line_entity : Entity := {| dxftype := "LINE"; tags := line_tags |}.

(** An entity whose type name holds markup. *)
Definition markup_entity : Entity :=
  {| dxftype := "<b>&"; tags := [dxftag 5 (VStr "2B")] |}.

(** A tag with a group code the type table does not have. *)
Definition unknown_tag : DXFTag := dxftag 2000 (VStr "x").

Definition example_header : list (string * HeaderVar) :=
  [("$ACADVER", ScalarVar 1 (VStr "AC1015"));
   ("$HANDSEED", ScalarVar 5 (VStr "FF"));
   ("$EXTMIN", PointVar 10 [NFloat "0.0"; NFloat "0.0"; NFloat "0.0"]);
   ("$LIMMAX", PointVar 10 [NFloat "420.0"; NFloat "297.0"])].

Definition example_drawing : Drawing := {|
  filename := Some "/home/user/drawing.dxf";
  sections :=
    [ {| section_name := "header"; section_data := HeaderData example_header |};
      {| section_name := "entities";
         section_data := EntityData [line_entity; markup_entity] |};
      {| section_name := "thumbnailimage";
         section_data := TagsData [dxftag 90 (VInt 1); dxftag 0 (VStr "ENDSEC")] |} ]
|}.

(** A document with a handle whose text reads like a section anchor. *)
Definition anchored_drawing : Drawing := {|
  filename := None;
  sections :=
    [ {| section_name := "acdsdata";
         section_data := TagsData [dxftag 5 (VStr "section_-1")] |} ]
|}.

Definition broken_drawing : Drawing := {|
  filename := None;
  sections :=
    [ {| section_name := "entities"; section_data := EntityData [line_entity] |};
      {| section_name := "acdsdata";
         section_data := TagsData [dxftag 0 (VStr "X"); unknown_tag] |} ]
|}.

(** ** More of what the templates yield *)

(** [html] has a hyperlink to the anchor [target], whatever the other
    attributes of the link are. *)
Definition has_href (html target : string) : Prop :=
  exists pre post, html = pre ++ py "href='#" ++ target ++ py "'" ++ post.

(** [HTML_TEMPLATE] *)
Definition html_page (name toc dxf_file : string) : string :=
  py "<!DOCTYPE html>\n<html>\n<head>\n<meta charset='utf-8'>\n"
  ++ py "<link rel='stylesheet' href='dxf2html.css'>\n"
  ++ py "<script src='dxf2html.js'></script>\n<title>" ++ name
  ++ py ".dxf</title>\n</head>\n<body>\n<h1>DXF-FILE: " ++ name
  ++ py ".dxf</h1>\n<div id='toc'>\n" ++ toc
  ++ py "\n<div>\n<div id='dxf-file'>\n" ++ dxf_file
  ++ py "\n</div>\n</body>\n".

Definition entities_block (entity_strings : list string) : string :=
  py "<div class='dxf-entities'>\n" ++ join (py "\n") entity_strings
  ++ py "\n</div>".

Definition tables_block (tables_html_strings : list string) : string :=
  py "<div id='dxf-tables' class='dxf-tables'>"
  ++ join (py "\n") tables_html_strings ++ py "</div>".

Definition blocks_block (block_strings : list string) : string :=
  py "<div id='dxf-blocks' class='dxf-blocks'>\n"
  ++ join (py "\n") block_strings ++ py "\n</div>".

Definition sections_block (sections_html : list string) : string :=
  py "<div class='dxf-sections'>\n" ++ join (py "\n") sections_html
  ++ py "\n</div>".

(** ** Documents the renderers return for *)

(** A header variable [vartype] has a label for: a point of at most
    three coordinates, or a value whose group code has a type label. *)
Definition labelled `{Collaborators} (v : HeaderVar) : Prop :=
  match v with
  | PointVar _ p => (length p <= 3)%nat
  | ScalarVar c _ => is_ok (tag_type_str c) = true
  end.

(** The section holds what its name makes [section2html] read, and its
    title is literal text for the wrapper template. *)
Definition well_shaped `{Collaborators} (s : Section) : Prop :=
  brace_free (upper (section_name s)) = true
  /\ match section_data s with
     | HeaderData _ => section_name s = "header"
     | EntityData _ => In (section_name s) ["classes"; "objects"; "entities"]
     | TablesData _ => section_name s = "tables"
     | BlocksData _ => section_name s = "blocks"
     | TagsData _ =>
         ~ In (section_name s)
             ["header"; "classes"; "objects"; "entities"; "tables"; "blocks"]
     end.

Definition section_header_vars (s : Section) : list HeaderVar :=
  match section_data s with
  | HeaderData hdrvars => map snd hdrvars
  | _ => []
  end.

(** The header variables of a document. *)
Definition header_vars (dwg : Drawing) : list HeaderVar :=
  flat_map section_header_vars (sections dwg).

(** ** The group codes a rendering looks up *)

(** The label of a point needs no lookup; the label of any other header
    variable is looked up under its group code. *)
Definition hdrvar_codes (v : HeaderVar) : list Z :=
  match v with
  | ScalarVar c _ => [c]
  | PointVar _ _ => []
  end.

(** The group codes [tag_type_str] is called with for the data of a
    section, in the order of the calls. *)
Definition section_codes (s : Section) : list Z :=
  match section_data s with
  | HeaderData hdrvars => flat_map (fun item => hdrvar_codes (snd item)) hdrvars
  | EntityData entities => map code (entities_tags entities)
  | TablesData tables => map code (flat_map table_tags tables)
  | BlocksData blocks => map code (flat_map block_tags blocks)
  | TagsData tags => map code tags
  end.

Definition codes_looked_up (dwg : Drawing) : list Z :=
  flat_map section_codes (sections dwg).

(** A point has one of the two point labels: at most three coordinates. *)
Definition point_fits (v : HeaderVar) : Prop :=
  match v with
  | PointVar _ p => (length p <= 3)%nat
  | ScalarVar _ _ => True
  end.

Definition code_ok `{Collaborators} (c : Z) : Prop :=
  is_ok (tag_type_str c) = true.

(** The first of the [codes] without a type label raises [e]. *)
Definition first_failure `{Collaborators} (codes : list Z) (e : exn) : Prop :=
  exists before c after,
    codes = (before ++ c :: after)%list
    /\ Forall code_ok before
    /\ tag_type_str c = Raise e.

(** The rendering of the data of a section, before it goes into the
    wrapper. *)
Definition section_body `{Collaborators} (s : Section) : result string :=
  match section_data s with
  | HeaderData hdrvars => hdrvars2html hdrvars
  | EntityData entities => entities2html entities
  | TablesData tables => tables2html tables
  | BlocksData blocks => blocks2html blocks
  | TagsData tags => tags2html tags
  end.

(** The wrapper template of a section by its parts: the [id], the title,
    and the targets of the link named [previous] and of the link named
    [next]. *)
Definition section_wrapper (id title previous next : string) : string :=
  py "<div id='" ++ id
  ++ py "' class='dxf-section'><h2>SECTION: " ++ title
  ++ py "</h2>\n<div><a href='#" ++ previous
  ++ py "'>previous</a> <a href='#" ++ next
  ++ py "'>next</a></div>\n{}\n</div>\n".

(** A section of no known kind whose name holds a brace, without tags. *)
Definition braced_section : Section :=
  {| section_name := "a}b"; section_data := TagsData [] |}.

(** A section of no known kind with a tag the type table does not have. *)
Definition unknown_section : Section :=
  {| section_name := "acdsdata"; section_data := TagsData [unknown_tag] |}.

(** A document whose first tag without a type label is in an entry of
    a table, after a header and an entity that render. *)
Definition broken_tables_drawing : Drawing := {|
  filename := None;
  sections :=
    [ {| section_name := "header"; section_data := HeaderData example_header |};
      {| section_name := "entities"; section_data := EntityData [line_entity] |};
      {| section_name := "tables";
         section_data :=
           TablesData
             [ {| table_name := "layer";
                  _table_header := [dxftag 0 (VStr "TABLE"); dxftag 70 (VInt 1)];
                  table_entries :=
                    [ {| dxftype := "LAYER";
                         tags := [dxftag 0 (VStr "LAYER"); unknown_tag;
                                  dxftag 2000 (VStr "y")] |} ] |} ] |} ]
|}.

(** * Properties *)

(** Closes a goal on closed terms with a fact that evaluates to it. *)
Ltac evaluated W := revert W; vm_compute; exact (fun x => x).


(** ** Strings, lists and results *)

Lemma append_assoc (a b c : string) : (a ++ b) ++ c = a ++ (b ++ c).
Proof. induction a as [|x a IH]; simpl; [reflexivity | now rewrite IH]. Qed.

Lemma append_nil_r (a : string) : a ++ EmptyString = a.
Proof. induction a as [|x a IH]; simpl; [reflexivity | now rewrite IH]. Qed.

Lemma prefix_append (a b : string) : String.prefix a (a ++ b) = true.
Proof.
  induction a as [|x a IH]; simpl.
  - now destruct b.
  - destruct (ascii_dec x x) as [_|n]; [exact IH | now elim n].
Qed.

Lemma contains_intro (needle pre post : string) :
  contains needle (pre ++ needle ++ post) = true.
Proof.
  induction pre as [|x pre IH].
  - change (EmptyString ++ needle ++ post) with (needle ++ post).
    pose proof (prefix_append needle post) as P.
    destruct (needle ++ post); cbn [contains]; now rewrite P.
  - change (contains needle (String x pre ++ needle ++ post))
      with (String.prefix needle (String x pre ++ needle ++ post)
            || contains needle (pre ++ needle ++ post)).
    rewrite IH. apply orb_true_r.
Qed.

Lemma prefix_elim (needle hay : string) :
  String.prefix needle hay = true -> exists post, hay = needle ++ post.
Proof.
  revert hay. induction needle as [|c needle IH]; intros hay Hp.
  - now exists hay.
  - destruct hay as [|d hay]; simpl in Hp; [discriminate|].
    destruct (ascii_dec c d) as [->|_]; [|discriminate].
    destruct (IH hay Hp) as (post & ->). now exists post.
Qed.

Lemma contains_elim (needle hay : string) :
  contains needle hay = true -> exists pre post, hay = pre ++ needle ++ post.
Proof.
  induction hay as [|c hay IH]; cbn [contains]; intros Hc.
  - rewrite orb_false_r in Hc. destruct (prefix_elim _ _ Hc) as (post & E).
    now exists EmptyString, post.
  - apply orb_true_iff in Hc. destruct Hc as [Hp|Hc].
    + destruct (prefix_elim _ _ Hp) as (post & E).
      now exists EmptyString, post.
    + destruct (IH Hc) as (pre & post & ->).
      now exists (String c pre), post.
Qed.

Lemma join_In (sep x : string) (xs : list string) :
  In x xs -> exists pre post, join sep xs = pre ++ x ++ post.
Proof.
  induction xs as [|y ys IH]; intros Hin; [contradiction|].
  destruct Hin as [->|Hin].
  - destruct ys as [|z ys].
    + exists EmptyString, EmptyString. simpl. now rewrite append_nil_r.
    + exists EmptyString, (sep ++ join sep (z :: ys)). reflexivity.
  - destruct (IH Hin) as (pre & post & E).
    destruct ys as [|z ys]; [contradiction|].
    exists (y ++ sep ++ pre), post.
    change (join sep (y :: z :: ys)) with (y ++ sep ++ join sep (z :: ys)).
    rewrite E. now rewrite !append_assoc.
Qed.

Lemma for_each_map {A B : Type} (f : A -> result B) (g : A -> B) (xs : list A) :
  (forall x, In x xs -> f x = Ok (g x)) -> for_each f xs = Ok (map g xs).
Proof.
  induction xs as [|x xs IH]; intros Hf; simpl; [reflexivity|].
  rewrite (Hf x (or_introl eq_refl)). simpl.
  rewrite IH by (intros y Hy; apply Hf; now right). reflexivity.
Qed.

Lemma for_each_raise {A B : Type} (f : A -> result B) (pre post : list A)
      (x : A) (ys : list B) (e : exn) :
  for_each f pre = Ok ys -> f x = Raise e ->
  for_each f (pre ++ x :: post) = Raise e.
Proof.
  revert ys. induction pre as [|p pre IH]; intros ys Hpre Hx; simpl.
  - now rewrite Hx.
  - simpl in Hpre. destruct (f p) as [y| |]; simpl in *; try discriminate.
    destruct (for_each f pre) as [zs| |] eqn:E; simpl in *; try discriminate.
    now rewrite (IH zs eq_refl Hx).
Qed.

Lemma for_each_inv {A B : Type} (f : A -> result B) (xs : list A) (ys : list B) :
  for_each f xs = Ok ys -> Forall2 (fun x y => f x = Ok y) xs ys.
Proof.
  revert ys. induction xs as [|x xs IH]; intros ys Hxs; simpl in Hxs.
  - injection Hxs as <-. constructor.
  - destruct (f x) as [y| |] eqn:Ex; simpl in Hxs; try discriminate.
    destruct (for_each f xs) as [zs| |] eqn:E; simpl in Hxs; try discriminate.
    injection Hxs as <-. constructor; [exact Ex | now apply IH].
Qed.

Lemma for_each_Forall2 {A B : Type} (f : A -> result B) (xs : list A) (ys : list B) :
  Forall2 (fun x y => f x = Ok y) xs ys -> for_each f xs = Ok ys.
Proof.
  induction 1 as [|x y xs ys Hx _ IH]; simpl; [reflexivity|].
  now rewrite Hx, IH.
Qed.

Lemma for_each_length {A B : Type} (f : A -> result B) (xs : list A) (ys : list B) :
  for_each f xs = Ok ys -> length ys = length xs.
Proof.
  intros Hxs. apply for_each_inv in Hxs.
  induction Hxs; simpl; congruence.
Qed.

(** ** The code sets *)

Lemma mem_In (x : Z) (codes : list Z) : mem x codes = true <-> In x codes.
Proof.
  unfold mem. rewrite existsb_exists. split.
  - intros (y & Hy & E). apply Z.eqb_eq in E. now subst.
  - intros Hx. exists x. split; [exact Hx | apply Z.eqb_refl].
Qed.

Lemma range_In (x a b : Z) : In x (range a b) <-> a <= x < b.
Proof.
  unfold range. rewrite in_map_iff. split.
  - intros (i & <- & Hi). apply in_seq in Hi. lia.
  - intros Hx. exists (Z.to_nat (x - a)). split; [lia|].
    apply in_seq. lia.
Qed.

Lemma HANDLE_DEFINITIONS_spec (x : Z) :
  mem x HANDLE_DEFINITIONS = true <-> x = 5 \/ x = 105 \/ 320 <= x < 330.
Proof.
  rewrite mem_In. unfold HANDLE_DEFINITIONS, _HANDLE_CODES.
  rewrite in_app_iff, range_In. simpl. intuition lia.
Qed.

Lemma HANDLE_LINKS_spec (x : Z) :
  mem x HANDLE_LINKS = true <->
  330 <= x < 370 \/ x = 480 \/ x = 481 \/ x = 1005.
Proof.
  rewrite mem_In. unfold HANDLE_LINKS, _HANDLE_POINTERS.
  rewrite in_app_iff, range_In. simpl. intuition lia.
Qed.

Lemma GROUP_MARKERS_spec (x : Z) :
  mem x GROUP_MARKERS = true <-> x = 0 \/ x = 100 \/ x = 102 \/ x = 1001.
Proof.
  rewrite mem_In. unfold GROUP_MARKERS, GENERAL_MARKER, SUBCLASS_MARKER,
    APP_DATA_MARKER, EXT_DATA_MARKER. simpl. intuition lia.
Qed.

Lemma handle_link_not_definition (x : Z) :
  mem x HANDLE_LINKS = true -> mem x HANDLE_DEFINITIONS = false.
Proof.
  intros Hl. apply HANDLE_LINKS_spec in Hl.
  destruct (mem x HANDLE_DEFINITIONS) eqn:Hd; [|reflexivity].
  apply HANDLE_DEFINITIONS_spec in Hd. lia.
Qed.

(** ** Escaping *)

Lemma escape_char_plain (q : bool) (c : ascii) :
  is_plain c = true -> escape_char q c = String c EmptyString.
Proof.
  unfold is_plain, escape_char. intros Hc. apply negb_true_iff in Hc.
  repeat (apply orb_false_iff in Hc; destruct Hc as [Hc ?]).
  repeat match goal with E : Ascii.eqb _ _ = false |- _ => rewrite E; clear E end.
  now rewrite !andb_false_r.
Qed.

Lemma html_escape_plain (q : bool) (s : string) :
  string_forall is_plain s = true -> html_escape q s = s.
Proof.
  induction s as [|c s IH]; simpl; [reflexivity|].
  intros Hs. apply andb_true_iff in Hs. destruct Hs as [Hc Hs].
  now rewrite (escape_char_plain q c Hc), (IH Hs).
Qed.

Lemma is_int_char_plain (c : ascii) : is_int_char c = true -> is_plain c = true.
Proof.
  destruct c as [[] [] [] [] [] [] [] []]; vm_compute; congruence.
Qed.

Lemma string_forall_impl (p q : ascii -> bool) (s : string) :
  (forall c, p c = true -> q c = true) ->
  string_forall p s = true -> string_forall q s = true.
Proof.
  intros Hpq. induction s as [|c s IH]; simpl; [reflexivity|].
  intros Hs. apply andb_true_iff in Hs. destruct Hs as [Hc Hs].
  now rewrite (Hpq c Hc), (IH Hs).
Qed.

Lemma string_of_uint_int_chars (d : Decimal.uint) :
  string_forall is_int_char (NilEmpty.string_of_uint d) = true.
Proof. induction d; simpl; auto. Qed.

Lemma str_int_chars (n : Z) : string_forall is_int_char (str_int n) = true.
Proof.
  unfold str_int, NilZero.string_of_int, NilZero.string_of_uint.
  destruct (Z.to_int n) as [d|d]; destruct d; simpl;
    auto using string_of_uint_int_chars.
Qed.

(** The text of an integer is its own escaped form. *)
Lemma html_escape_str_int (q : bool) (n : Z) :
  html_escape q (str_int n) = str_int n.
Proof.
  apply html_escape_plain.
  apply string_forall_impl with (p := is_int_char);
    [exact is_int_char_plain | apply str_int_chars].
Qed.

Lemma entity_follows_intro (name s : string) :
  In name ["amp;"; "lt;"; "gt;"; "quot;"; "#x27;"] ->
  entity_follows (name ++ s) = true.
Proof.
  intros Hin. unfold entity_follows. apply existsb_exists.
  exists name. split; [exact Hin | apply prefix_append].
Qed.

Lemma markup_free_reference (name s : string) :
  In name ["amp;"; "lt;"; "gt;"; "quot;"; "#x27;"] ->
  markup_free (String "&" (name ++ s)) = markup_free s.
Proof.
  intros Hin. cbn [markup_free].
  change (Ascii.eqb "&" "<" || Ascii.eqb "&" ">") with false.
  change (Ascii.eqb "&" "&") with true. cbv iota.
  rewrite (entity_follows_intro name s Hin).
  simpl in Hin.
  repeat (destruct Hin as [<-|Hin]; [reflexivity|]). contradiction.
Qed.

Lemma markup_free_escape_char (q : bool) (c : ascii) (s : string) :
  markup_free (escape_char q c ++ s) = markup_free s.
Proof.
  unfold escape_char.
  destruct (Ascii.eqb c "&") eqn:Eamp;
    [apply (markup_free_reference "amp;"); simpl; tauto|].
  destruct (Ascii.eqb c "<") eqn:Elt;
    [apply (markup_free_reference "lt;"); simpl; tauto|].
  destruct (Ascii.eqb c ">") eqn:Egt;
    [apply (markup_free_reference "gt;"); simpl; tauto|].
  destruct (q && Ascii.eqb c (ascii_of_nat 34));
    [apply (markup_free_reference "quot;"); simpl; tauto|].
  destruct (q && Ascii.eqb c "'");
    [apply (markup_free_reference "#x27;"); simpl; tauto|].
  simpl. now rewrite Eamp, Elt, Egt.
Qed.

(** Escaped text has no [<], no [>] and no [&] of its own. *)
Lemma markup_free_html_escape (q : bool) (s : string) :
  markup_free (html_escape q s) = true.
Proof.
  induction s as [|c s IH]; [reflexivity|].
  simpl html_escape. now rewrite markup_free_escape_char.
Qed.

Lemma prefix_char (c : ascii) (s : string) :
  String.prefix (String c EmptyString) s
  = match s with String d _ => Ascii.eqb c d | EmptyString => false end.
Proof.
  destruct s as [|d s]; [reflexivity|]. simpl.
  destruct (ascii_dec c d) as [->|n].
  - rewrite Ascii.eqb_refl. now destruct s.
  - symmetry. now apply Ascii.eqb_neq.
Qed.

Lemma markup_free_no_lt (s : string) :
  markup_free s = true -> contains "<" s = false.
Proof.
  induction s as [|c s IH]; [reflexivity|].
  cbn [markup_free contains]. rewrite prefix_char, (Ascii.eqb_sym "<" c).
  destruct (Ascii.eqb c "<"); simpl; [discriminate|].
  destruct (Ascii.eqb c ">"); simpl; [discriminate|].
  destruct (Ascii.eqb c "&"); [|exact IH].
  intros Hs. apply andb_true_iff in Hs. now apply IH.
Qed.

Lemma markup_free_no_gt (s : string) :
  markup_free s = true -> contains ">" s = false.
Proof.
  induction s as [|c s IH]; [reflexivity|].
  cbn [markup_free contains]. rewrite prefix_char, (Ascii.eqb_sym ">" c).
  destruct (Ascii.eqb c "<"); simpl; [discriminate|].
  destruct (Ascii.eqb c ">"); simpl; [discriminate|].
  destruct (Ascii.eqb c "&"); [|exact IH].
  intros Hs. apply andb_true_iff in Hs. now apply IH.
Qed.

(** ** The generic tag-stream renderer *)

Section TagStream.
Context `{Collaborators}.

Lemma group_marker_eq (tag : DXFTag) (row : string) :
  group_marker tag row
  = Ok (if mem (code tag) GROUP_MARKERS then marker_row row else row).
Proof.
  unfold group_marker. now destruct (mem (code tag) GROUP_MARKERS).
Qed.

(** What [tags2html] returns, row by row. *)
Lemma tags2html_inv (tags : list DXFTag) (html : string) :
  tags2html tags = Ok html ->
  exists rows,
    for_each (fun tag => h <- tag2html tag ;; group_marker tag h) tags
    = Ok rows
    /\ html = tags_block rows.
Proof.
  unfold tags2html. intros Hhtml.
  destruct (for_each _ tags) as [rows| |]; simpl in Hhtml; try discriminate.
  exists rows. split; [reflexivity|].
  change (Ok (tags_block rows) = Ok html) in Hhtml. congruence.
Qed.

Lemma tag2html_eq (tag : DXFTag) (label : string) :
  tag_type_str (code tag) = Ok label ->
  tag2html tag
  = Ok ((if mem (code tag) HANDLE_DEFINITIONS then handle_def_row
         else if mem (code tag) HANDLE_LINKS then handle_link_row
         else plain_row)
          (str_int (code tag)) (escape label) (escape (ustr (value tag)))).
Proof.
  intros Hlabel. unfold tag2html. rewrite Hlabel. unfold bind.
  destruct (mem (code tag) HANDLE_DEFINITIONS);
    [|destruct (mem (code tag) HANDLE_LINKS)]; reflexivity.
Qed.

Lemma tags2html_contains (tags : list DXFTag) (tag : DXFTag)
      (row html : string) :
  In tag tags -> tag2html tag = Ok row -> tags2html tags = Ok html ->
  exists pre post, html = pre ++ row ++ post.
Proof.
  intros Hin Hrow Hhtml.
  destruct (tags2html_inv tags html Hhtml) as (rows & Hrows & ->).
  apply for_each_inv in Hrows. clear Hhtml.
  assert (exists r, In r rows
                    /\ (r = row \/ r = marker_row row)) as (r & Hr & Er).
  { induction Hrows as [|t r ts rs Ht _ IH]; [contradiction|].
    destruct Hin as [->|Hin].
    - exists r. split; [now left|].
      rewrite Hrow in Ht. cbn [bind] in Ht. rewrite group_marker_eq in Ht.
      destruct (mem (code tag) GROUP_MARKERS); injection Ht as <-; auto.
    - destruct (IH Hin) as (r' & Hr' & Er'). exists r'. split; [now right|assumption]. }
  destruct (join_In (py "\n") r rows Hr) as (a & b & Ej).
  unfold tags_block. rewrite Ej.
  destruct Er as [->| ->].
  - exists (py "<div class='dxf-tags'>\n" ++ a), (b ++ py "\n</div>").
    now rewrite !append_assoc.
  - exists (py "<div class='dxf-tags'>\n" ++ a
            ++ py "<div class='tag-group-marker'>"),
      (py "</div>" ++ b ++ py "\n</div>").
    unfold marker_row. now rewrite !append_assoc.
Qed.

(** C1: a handle definition is rendered as a row whose code span has
    the escaped value as its [id]; a handle link as a row whose value
    is a hyperlink to [#] followed by the escaped value, with the
    escaped value as its text; any other tag as a plain row of code,
    type label and escaped value.  The row is part of what the
    tag-stream renderer returns for a sequence the tag is in. *)
Theorem tag2html_rows (tag : DXFTag) (label : string) :
  tag_type_str (code tag) = Ok label ->
  let c := str_int (code tag) in
  let t := escape label in
  let v := escape (ustr (value tag)) in
  (mem (code tag) HANDLE_DEFINITIONS = true ->
   tag2html tag
   = Ok (py "<div class='dxf-tag'><span id='" ++ v ++ py "' class='tag-code'>"
         ++ c ++ py "</span> <span class='var-type'>" ++ t
         ++ py "</span> <span class='tag-value'>" ++ v
         ++ py "</span></div>"))
  /\ (mem (code tag) HANDLE_LINKS = true ->
      tag2html tag
      = Ok (py "<div class='dxf-tag'><span class='tag-code'>" ++ c ++ " " ++ t
            ++ py "</span> <a class='tag-value' href='#" ++ v ++ py "'>" ++ v
            ++ py "</a></div>"))
  /\ (mem (code tag) HANDLE_DEFINITIONS = false ->
      mem (code tag) HANDLE_LINKS = false ->
      tag2html tag
      = Ok (py "<div class='dxf-tag'><span class='tag-code'>" ++ c
            ++ py "</span> <span class='var-type'>" ++ t
            ++ py "</span> <span class='tag-value'>" ++ v
            ++ py "</span></div>"))
  /\ (forall tags row html,
         In tag tags -> tag2html tag = Ok row -> tags2html tags = Ok html ->
         exists pre post, html = pre ++ row ++ post).
Proof.
  intros Hlabel c t v. pose proof (tag2html_eq tag label Hlabel) as E.
  repeat split.
  - intros Hd. rewrite E, Hd. reflexivity.
  - intros Hl. rewrite E, Hl, (handle_link_not_definition _ Hl). reflexivity.
  - intros Hd Hl. rewrite E, Hd, Hl. reflexivity.
  - intros tags row html. apply tags2html_contains.
Qed.

(** C2: the value, the type label and the code a row is made of are
    the escaped texts (the code is an integer, whose text is its own
    escaped form), and an escaped text has no [<], no [>] and no [&]
    other than the start of a character reference: the characters of
    the value reach the row in their escaped forms only. *)
Theorem tag2html_escapes (tag : DXFTag) (label : string) :
  tag_type_str (code tag) = Ok label ->
  let tpl :=
    if mem (code tag) HANDLE_DEFINITIONS then TAG_TEMPLATE_HANDLE_DEF
    else if mem (code tag) HANDLE_LINKS then TAG_TEMPLATE_HANDLE_LINK
    else TAG_TEMPLATE in
  let row :=
    if mem (code tag) HANDLE_DEFINITIONS then handle_def_row
    else if mem (code tag) HANDLE_LINKS then handle_link_row
    else plain_row in
  tag2html tag
  = format []
      [("code", escape (str_int (code tag)));
       ("value", escape (ustr (value tag))); ("type", escape label)] tpl
  /\ tag2html tag
     = Ok (row (escape (str_int (code tag))) (escape label)
             (escape (ustr (value tag))))
  /\ markup_free (escape (str_int (code tag))) = true
  /\ markup_free (escape label) = true
  /\ markup_free (escape (ustr (value tag))) = true
  /\ (forall s, contains "<" (escape s) = false
                /\ contains ">" (escape s) = false).
Proof.
  intros Hlabel tpl row.
  assert (Ec : escape (str_int (code tag)) = str_int (code tag))
    by apply html_escape_str_int.
  split; [|split].
  - rewrite Ec. unfold tag2html. rewrite Hlabel. reflexivity.
  - rewrite Ec. apply tag2html_eq, Hlabel.
  - repeat split; try apply markup_free_html_escape.
    + apply markup_free_no_lt, markup_free_html_escape.
    + apply markup_free_no_gt, markup_free_html_escape.
Qed.

End TagStream.

Section Markers.
Context `{Collaborators}.

Lemma for_each_marked (tags : list DXFTag) (rows : list string) :
  Forall2 (fun tag row => tag2html tag = Ok row) tags rows ->
  for_each (fun tag => h <- tag2html tag ;; group_marker tag h) tags
  = Ok (map (fun '(tag, row) =>
               if mem (code tag) GROUP_MARKERS then marker_row row else row)
          (combine tags rows)).
Proof.
  induction 1 as [|tag row tags rows Hrow _ IH]; [reflexivity|].
  cbn [for_each combine map]. rewrite Hrow. cbn [bind].
  rewrite group_marker_eq. cbn [bind]. now rewrite IH.
Qed.

(** Every tag of a sequence gets a row when every code has a type label. *)
Lemma for_each_tag2html_total (tags : list DXFTag) :
  Forall (fun tag => exists label, tag_type_str (code tag) = Ok label) tags ->
  exists rows, for_each tag2html tags = Ok rows.
Proof.
  induction 1 as [|tag tags (label & Hlabel) _ (rows & IH)].
  - now exists [].
  - eexists. cbn [for_each].
    rewrite (tag2html_eq tag label Hlabel), IH. reflexivity.
Qed.

(** C3: the tag-stream renderer returns one row per tag, in the order
    of the tags; the row of a tag whose code is a group marker, and of
    no other tag, is put into a marker container of its own, one
    container per row. *)
Theorem tags2html_group_markers (tags : list DXFTag) (rows : list string) :
  for_each tag2html tags = Ok rows ->
  length rows = length tags
  /\ tags2html tags
     = Ok (py "<div class='dxf-tags'>\n"
           ++ join (py "\n")
                (map (fun '(tag, row) =>
                        if mem (code tag) GROUP_MARKERS
                        then py "<div class='tag-group-marker'>" ++ row
                             ++ py "</div>"
                        else row)
                   (combine tags rows))
           ++ py "\n</div>").
Proof.
  intros Hrows. split; [exact (for_each_length _ _ _ Hrows)|].
  unfold tags2html.
  rewrite (for_each_marked tags rows (for_each_inv _ _ _ Hrows)).
  reflexivity.
Qed.

End Markers.

(** ** The table of contents and the section wrappers *)

Lemma enumerate_from_nth {A : Type} (xs : list A) (k i : nat) :
  nth_error (combine (map Z.of_nat (seq k (length xs))) xs) i
  = option_map (fun x => (Z.of_nat (k + i), x)) (nth_error xs i).
Proof.
  revert k i. induction xs as [|x xs IH]; intros k i.
  - now destruct i.
  - destruct i as [|i]; simpl.
    + now rewrite Nat.add_0_r.
    + rewrite IH. now rewrite Nat.add_succ_r.
Qed.

Lemma enumerate_nth {A : Type} (xs : list A) (i : nat) (x : A) :
  nth_error xs i = Some x ->
  nth_error (enumerate xs) i = Some (Z.of_nat i, x).
Proof.
  intros Hx. unfold enumerate. now rewrite enumerate_from_nth, Hx.
Qed.

Lemma enumerate_length {A : Type} (xs : list A) :
  length (enumerate xs) = length xs.
Proof.
  unfold enumerate. rewrite length_combine, length_map, length_seq. lia.
Qed.

Lemma enumerate_In {A : Type} (xs : list A) (i : Z) (x : A) :
  In (i, x) (enumerate xs) ->
  0 <= i < Z.of_nat (length xs) /\ nth_error xs (Z.to_nat i) = Some x.
Proof.
  intros Hin. apply In_nth_error in Hin. destruct Hin as (n & Hn).
  assert (Hlt : (n < length xs)%nat).
  { rewrite <- (enumerate_length xs). apply nth_error_Some. congruence. }
  destruct (nth_error xs n) as [y|] eqn:Ey;
    [|apply nth_error_None in Ey; lia].
  rewrite (enumerate_nth xs n y Ey) in Hn. injection Hn as <- <-.
  rewrite Nat2Z.id. split; [lia | exact Ey].
Qed.

Lemma SECTION_ID_format (x : string) :
  format [x] [] SECTION_ID = Ok ("section_" ++ x).
Proof.
  change (format [x] [] SECTION_ID) with (Ok ("section_" ++ x ++ EmptyString)).
  now rewrite append_nil_r.
Qed.

Lemma section_id_format (index : Z) :
  format [str_int index] [] SECTION_ID = Ok (section_id index).
Proof. apply SECTION_ID_format. Qed.

Section Contents.
Context `{Collaborators}.

Lemma create_section_html_template_eq (name : string) (index : Z) :
  create_section_html_template name index
  = Ok (section_template (upper name) index).
Proof.
  unfold create_section_html_template.
  rewrite !section_id_format. reflexivity.
Qed.

(** C4: the table of contents has one entry per section, in the order
    of the sections; the entry of the section at index [i] is labelled
    with the upper-cased name and links to [section_<i>], the [id] the
    wrapper of that section carries. *)
Theorem sections_toc_entries (dwg : Drawing) :
  exists entries,
    sections_toc_as_html dwg
    = Ok (py "<h2>Table of Contents</h2>\n<ul>\n" ++ join (py "\n") entries
          ++ py "\n</ul>")
    /\ length entries = length (sections dwg)
    /\ forall i section,
        nth_error (sections dwg) i = Some section ->
        nth_error entries i
        = Some (py "<li><a href='#" ++ "section_" ++ str_int (Z.of_nat i)
                ++ py "' >" ++ upper (section_name section)
                ++ py "</a></li>")
        /\ exists rest,
            create_section_html_template (section_name section) (Z.of_nat i)
            = Ok (py "<div id='" ++ "section_" ++ str_int (Z.of_nat i)
                  ++ py "'" ++ rest).
Proof.
  exists (map (fun '(index, section) =>
                 toc_entry (section_id index) (upper (section_name section)))
            (enumerate (sections dwg))).
  split; [|split].
  - unfold sections_toc_as_html.
    rewrite for_each_map
      with (g := fun '(index, section) =>
                   toc_entry (section_id index) (upper (section_name section)));
      [reflexivity|].
    intros [index section] _. now rewrite section_id_format.
  - now rewrite length_map, enumerate_length.
  - intros i section Hi. split.
    + rewrite nth_error_map, (enumerate_nth _ _ _ Hi). reflexivity.
    + rewrite create_section_html_template_eq.
      exists (py " class='dxf-section'><h2>SECTION: "
              ++ upper (section_name section)
              ++ py "</h2>\n<div><a href='#" ++ section_id (Z.of_nat i - 1)
              ++ py "'>previous</a> <a href='#" ++ section_id (Z.of_nat i + 1)
              ++ py "'>next</a></div>\n{}\n</div>\n").
      reflexivity.
Qed.

End Contents.

(** ** Filling a section wrapper *)

Lemma format_from_literal (args : list string) (kwargs : list (string * string))
      (auto : nat) (s t : string) :
  brace_free s = true ->
  format_from args kwargs Text auto (s ++ t)
  = (r <- format_from args kwargs Text auto t ;; Ok (s ++ r)).
Proof.
  induction s as [|c s IH]; intros Hs.
  - simpl. now destruct (format_from args kwargs Text auto t).
  - simpl in Hs. apply andb_true_iff in Hs. destruct Hs as [Hc Hs].
    apply andb_true_iff in Hc. destruct Hc as [Ho Hc].
    apply negb_true_iff in Ho, Hc.
    change (String c s ++ t) with (String c (s ++ t)).
    cbn [format_from]. rewrite Ho, Hc, (IH Hs). unfold emit.
    now destruct (format_from args kwargs Text auto t).
Qed.

Lemma brace_free_append (a b : string) :
  brace_free (a ++ b) = brace_free a && brace_free b.
Proof.
  induction a as [|c a IH]; simpl; [reflexivity|].
  now rewrite IH, andb_assoc.
Qed.

Lemma is_int_char_brace_free (c : ascii) :
  is_int_char c = true ->
  negb (Ascii.eqb c "{") && negb (Ascii.eqb c "}") = true.
Proof.
  destruct c as [[] [] [] [] [] [] [] []]; vm_compute; congruence.
Qed.

Lemma section_id_brace_free (index : Z) : brace_free (section_id index) = true.
Proof.
  unfold section_id. rewrite brace_free_append. simpl.
  pose proof (str_int_chars index) as Hs.
  induction (str_int index) as [|c s IH]; [reflexivity|].
  simpl in Hs. apply andb_true_iff in Hs. destruct Hs as [Hc Hs].
  cbn [brace_free].
  now rewrite (is_int_char_brace_free c Hc), (IH Hs).
Qed.

(** A wrapper whose title has no brace takes the body in its one field. *)
Lemma section_template_format (name : string) (index : Z) (body : string) :
  brace_free name = true ->
  format [body] [] (section_template name index)
  = Ok (section_block name index body).
Proof.
  intros Hname. unfold format, section_template.
  rewrite format_from_literal by reflexivity.
  rewrite format_from_literal by apply section_id_brace_free.
  rewrite format_from_literal by reflexivity.
  rewrite format_from_literal by exact Hname.
  rewrite format_from_literal by reflexivity.
  rewrite format_from_literal by apply section_id_brace_free.
  rewrite format_from_literal by reflexivity.
  rewrite format_from_literal by apply section_id_brace_free.
  reflexivity.
Qed.

Lemma str_int_inj (n m : Z) : str_int n = str_int m -> n = m.
Proof.
  assert (R : forall z, NilZero.int_of_string (str_int z) = Some (Z.to_int z)).
  { intros z. apply NilZero.isi; destruct z; simpl; try discriminate;
      intros [= E]; exact (Unsigned.to_uint_nonnil _ E). }
  intros E. apply DecimalZ.to_int_inj.
  pose proof (R n) as Rn. rewrite E, R in Rn. congruence.
Qed.

Lemma section_id_inj (n m : Z) : section_id n = section_id m -> n = m.
Proof. unfold section_id. intros [= E]. now apply str_int_inj. Qed.

Lemma has_link_contains (html target : string) :
  has_link html target ->
  contains (py "<a href='#" ++ target ++ py "'>") html = true.
Proof.
  intros (pre & post & ->).
  replace (pre ++ py "<a href='#" ++ target ++ py "'>" ++ post)
    with (pre ++ (py "<a href='#" ++ target ++ py "'>") ++ post)
    by now rewrite !append_assoc.
  apply contains_intro.
Qed.

Lemma has_anchor_intro (html anchor : string) :
  contains (py " id='" ++ anchor ++ py "'") html = true ->
  has_anchor html anchor.
Proof.
  intros Hc. destruct (contains_elim _ _ Hc) as (pre & post & ->).
  exists pre, post. now rewrite !append_assoc.
Qed.

(** ** The section dispatcher *)

Section Dispatch.
Context `{Collaborators}.

Lemma section2html_other (section : Section) (template : string) :
  ~ In (section_name section)
      ["header"; "classes"; "objects"; "entities"; "tables"; "blocks"] ->
  section2html section template
  = (ts <- section_tags section ;; body <- tags2html ts ;;
     format [body] [] template).
Proof.
  intros Hn. unfold section2html.
  destruct (String.eqb_spec (section_name section) "header") as [E|_];
    [elim Hn; rewrite E; simpl; tauto|].
  destruct (existsb (String.eqb (section_name section))
              ["classes"; "objects"; "entities"]) eqn:E3.
  { apply existsb_exists in E3. destruct E3 as (x & Hx & E).
    apply String.eqb_eq in E. subst x. elim Hn. simpl in *. tauto. }
  destruct (String.eqb_spec (section_name section) "tables") as [E|_];
    [elim Hn; rewrite E; simpl; tauto|].
  destruct (String.eqb_spec (section_name section) "blocks") as [E|_];
    [elim Hn; rewrite E; simpl; tauto|].
  reflexivity.
Qed.

(** C5: the renderer of a section is chosen by the name of the section
    alone: the header renderer for [header], the entity-sequence
    renderer for [classes], [objects] and [entities], the table renderer
    for [tables], the block renderer for [blocks], and for any other
    name the tag-stream renderer on the section's tags.  An unknown
    name is no failure of its own: the section is rendered whenever its
    tags are and its title in upper case has no brace. *)
Theorem section2html_dispatch (section : Section) :
  let name := section_name section in
  (name = "header" ->
   forall template,
     section2html section template
     = (hv <- section_hdrvars section ;; body <- hdrvars2html hv ;;
        format [body] [] template))
  /\ (name = "classes" \/ name = "objects" \/ name = "entities" ->
      forall template,
        section2html section template
        = (es <- section_entities section ;; body <- entities2html es ;;
           format [body] [] template))
  /\ (name = "tables" ->
      forall template,
        section2html section template
        = (ts <- section_tables section ;; body <- tables2html ts ;;
           format [body] [] template))
  /\ (name = "blocks" ->
      forall template,
        section2html section template
        = (bs <- section_blocks section ;; body <- blocks2html bs ;;
           format [body] [] template))
  /\ (~ In name ["header"; "classes"; "objects"; "entities"; "tables";
                 "blocks"] ->
      (forall template,
          section2html section template
          = (ts <- section_tags section ;; body <- tags2html ts ;;
             format [body] [] template))
      /\ (forall ts body index template,
             section_data section = TagsData ts ->
             tags2html ts = Ok body ->
             brace_free (upper name) = true ->
             create_section_html_template name index = Ok template ->
             section2html section template
             = Ok (section_block (upper name) index body))).
Proof.
  intros name.
  split; [|split; [|split; [|split; [|intros Hn; split]]]].
  - intros E template. unfold section2html. fold name. now rewrite E.
  - intros E template. unfold section2html. fold name.
    destruct E as [E|[E|E]]; now rewrite E.
  - intros E template. unfold section2html. fold name. now rewrite E.
  - intros E template. unfold section2html. fold name. now rewrite E.
  - intros template. now apply section2html_other.
  - intros ts body index template Hdata Hbody Hname Htpl.
    rewrite (section2html_other _ _ Hn). unfold section_tags. rewrite Hdata. cbn [bind].
    rewrite Hbody. cbn [bind].
    rewrite create_section_html_template_eq in Htpl. injection Htpl as <-.
    now apply section_template_format.
Qed.

End Dispatch.

(** ** The header renderer *)

Section Header.
Context `{Collaborators}.

(** C6: a header variable is rendered with the plain row template,
    whatever its group code.  A point shows the escaped text of its
    tuple and the label at index [len - 2] of the two point labels:
    the 2D label for two coordinates, the 3D label for three.  Any
    other variable shows the escaped text of its value and the type
    label of its group code.  The rows come in the order of the
    mapping. *)
Theorem hdrvars2html_rows :
  (forall name c p,
      length p = 2%nat ->
      hdrvar2html (name, PointVar c p)
      = Ok (plain_row name (escape "<point 2D>") (escape (ustr_tuple p))))
  /\ (forall name c p,
         length p = 3%nat ->
         hdrvar2html (name, PointVar c p)
         = Ok (plain_row name (escape "<point 3D>") (escape (ustr_tuple p))))
  /\ (forall name c v label,
         tag_type_str c = Ok label ->
         hdrvar2html (name, ScalarVar c v)
         = Ok (plain_row name (escape label) (escape (ustr v))))
  /\ (forall c p,
         vartype (PointVar c p)
         = getitem ["<point 2D>"; "<point 3D>"] (Z.of_nat (length p) - 2))
  /\ (forall hdrvars rows,
         for_each hdrvar2html hdrvars = Ok rows ->
         length rows = length hdrvars
         /\ hdrvars2html hdrvars
            = Ok (py "<div id='dxf-header' class='dxf-header'>\n"
                  ++ join (py "\n") rows ++ py "\n</div>")).
Proof.
  split; [|split; [|split; [|split]]].
  - intros name c p Hp. unfold hdrvar2html, var2str, vartype.
    cbn [ispoint getpoint bind]. rewrite Hp. reflexivity.
  - intros name c p Hp. unfold hdrvar2html, var2str, vartype.
    cbn [ispoint getpoint bind]. rewrite Hp. reflexivity.
  - intros name c v label Hlabel. unfold hdrvar2html, var2str, vartype.
    cbn [ispoint hdrvar_value hdrvar_code bind]. rewrite Hlabel. reflexivity.
  - reflexivity.
  - intros hdrvars rows Hrows. split; [exact (for_each_length _ _ _ Hrows)|].
    unfold hdrvars2html. rewrite Hrows. reflexivity.
Qed.

End Header.

(** ** The section wrapper *)

Section Wrapper.
Context `{Collaborators}.

(** C7, as the module has it: the wrapper of the section at index [i]
    carries the [id] [section_<i>] and a navigation strip of two links,
    to [section_<i-1>] and to [section_<i+1>]; the current anchor is
    the [id] only.  For the first section the previous link goes to
    [section_-1] and for the last of [N] sections the next link goes to
    [section_<N>]; no wrapper of the document carries either [id], and
    building the wrapper returns all the same. *)
Theorem section_wrapper_navigation (dwg : Drawing) (i : nat)
        (section : Section) :
  nth_error (sections dwg) i = Some section ->
  let index := Z.of_nat i in
  let N := Z.of_nat (length (sections dwg)) in
  create_section_html_template (section_name section) index
  = Ok (py "<div id='" ++ section_id index
        ++ py "' class='dxf-section'><h2>SECTION: "
        ++ upper (section_name section)
        ++ py "</h2>\n<div><a href='#" ++ section_id (index - 1)
        ++ py "'>previous</a> <a href='#" ++ section_id (index + 1)
        ++ py "'>next</a></div>\n{}\n</div>\n")
  /\ section_id index = "section_" ++ str_int index
  /\ (index = 0 -> section_id (index - 1) = "section_-1")
  /\ (index = N - 1 -> section_id (index + 1) = section_id N)
  /\ (forall j other,
         nth_error (sections dwg) j = Some other ->
         section_id (Z.of_nat j) <> section_id (-1)
         /\ section_id (Z.of_nat j) <> section_id N).
Proof.
  intros Hi index N. split; [|split; [|split; [|split]]].
  - apply create_section_html_template_eq.
  - reflexivity.
  - intros ->. reflexivity.
  - intros ->. f_equal. lia.
  - intros j other Hj.
    assert (Hlt : (j < length (sections dwg))%nat)
      by (apply nth_error_Some; congruence).
    split; intros E; apply section_id_inj in E; lia.
Qed.

End Wrapper.

(** ** Failures *)

Lemma bind_ok_inv {A B : Type} (m : result A) (k : A -> result B) :
  is_ok (m' <- m ;; k m') = true -> exists a, m = Ok a /\ is_ok (k a) = true.
Proof. destruct m as [a| |]; simpl; try discriminate. now exists a. Qed.

Lemma for_each_ok {A B : Type} (f : A -> result B) (xs : list A) :
  is_ok (for_each f xs) = true -> Forall (fun x => is_ok (f x) = true) xs.
Proof.
  induction xs as [|x xs IH]; intros Hok; constructor.
  - simpl in Hok. apply bind_ok_inv in Hok. destruct Hok as (y & -> & _).
    reflexivity.
  - apply IH. simpl in Hok. apply bind_ok_inv in Hok.
    destruct Hok as (y & _ & Hok). apply bind_ok_inv in Hok.
    destruct Hok as (ys & -> & _). reflexivity.
Qed.

Lemma enumerate_from_app {A : Type} (a b : list A) (k : nat) :
  combine (map Z.of_nat (seq k (length (a ++ b)))) (a ++ b)
  = (combine (map Z.of_nat (seq k (length a))) a
     ++ combine (map Z.of_nat (seq (k + length a) (length b))) b)%list.
Proof.
  revert k. induction a as [|x a IH]; intros k; simpl.
  - now rewrite Nat.add_0_r.
  - f_equal. rewrite IH. now rewrite Nat.add_succ_r.
Qed.

Lemma enumerate_app_cons {A : Type} (a b : list A) (x : A) :
  exists rest,
    enumerate (a ++ x :: b)
    = (enumerate a ++ (Z.of_nat (length a), x) :: rest)%list.
Proof.
  unfold enumerate. rewrite enumerate_from_app. simpl. eexists. reflexivity.
Qed.

Section Failures.
Context `{Collaborators}.

Lemma tag2html_raise (tag : DXFTag) (e : exn) :
  tag_type_str (code tag) = Raise e -> tag2html tag = Raise e.
Proof. intros E. unfold tag2html. now rewrite E. Qed.

Lemma tags2html_raise (pre post : list DXFTag) (tag : DXFTag)
      (rows : list string) (e : exn) :
  for_each tag2html pre = Ok rows -> tag2html tag = Raise e ->
  tags2html (pre ++ tag :: post) = Raise e.
Proof.
  intros Hpre Htag. unfold tags2html.
  rewrite for_each_raise
    with (e := e)
         (ys := map (fun '(tag, row) =>
                       if mem (code tag) GROUP_MARKERS then marker_row row
                       else row) (combine pre rows)).
  - reflexivity.
  - apply for_each_marked, for_each_inv, Hpre.
  - now rewrite Htag.
Qed.

Lemma tag2html_ok (tag : DXFTag) :
  is_ok (tag2html tag) = true -> classified tag.
Proof.
  unfold tag2html, classified. intros Hok.
  apply bind_ok_inv in Hok. now destruct Hok as (t & -> & _).
Qed.

Lemma tags2html_ok (tags : list DXFTag) :
  is_ok (tags2html tags) = true -> Forall classified tags.
Proof.
  unfold tags2html. intros Hok. apply bind_ok_inv in Hok.
  destruct Hok as (rows & Hrows & _).
  assert (Hall : is_ok (for_each (fun tag => h <- tag2html tag ;;
                                             group_marker tag h) tags) = true)
    by now rewrite Hrows.
  apply for_each_ok in Hall. revert Hall. apply Forall_impl.
  intros tag Hok. apply bind_ok_inv in Hok.
  destruct Hok as (h & Hh & _). apply tag2html_ok. now rewrite Hh.
Qed.

Lemma entity2html_ok (entity : Entity) :
  is_ok (entity2html entity) = true -> Forall classified (tags entity).
Proof.
  unfold entity2html. intros Hok. apply bind_ok_inv in Hok.
  destruct Hok as (t & Ht & _). apply tags2html_ok. now rewrite Ht.
Qed.

Lemma entities2html_ok (entities : list Entity) :
  is_ok (entities2html entities) = true ->
  Forall classified (entities_tags entities).
Proof.
  unfold entities2html. intros Hok. apply bind_ok_inv in Hok.
  destruct Hok as (hs & Hhs & _).
  assert (Hall : is_ok (for_each entity2html entities) = true)
    by now rewrite Hhs.
  apply for_each_ok in Hall. apply Forall_flat_map.
  revert Hall. apply Forall_impl. exact entity2html_ok.
Qed.

Lemma table2html_ok (navigation : string) (table : Table) :
  is_ok (table2html navigation table) = true ->
  Forall classified (table_tags table).
Proof.
  unfold table2html, table_tags. intros Hok.
  apply bind_ok_inv in Hok. destruct Hok as (h & Hh & Hok).
  apply bind_ok_inv in Hok. destruct Hok as (header & _ & Hok).
  apply bind_ok_inv in Hok. destruct Hok as (entries & He & _).
  apply Forall_app. split.
  - apply tags2html_ok. now rewrite Hh.
  - apply entities2html_ok. now rewrite He.
Qed.

Lemma tables2html_ok (tables : list Table) :
  is_ok (tables2html tables) = true ->
  Forall classified (flat_map table_tags tables).
Proof.
  unfold tables2html. intros Hok. apply bind_ok_inv in Hok.
  destruct Hok as (hs & Hhs & _).
  assert (Hall : is_ok (for_each
                          (table2html (create_table_navigation tables))
                          tables) = true) by now rewrite Hhs.
  apply for_each_ok in Hall. apply Forall_flat_map.
  revert Hall. apply Forall_impl. intros t. apply table2html_ok.
Qed.

Lemma block2html_ok (b : BlockLayout) :
  is_ok (block2html b) = true -> Forall classified (block_tags b).
Proof.
  unfold block2html, block_tags. intros Hok.
  apply bind_ok_inv in Hok. destruct Hok as (h1 & H1 & Hok).
  apply bind_ok_inv in Hok. destruct Hok as (h2 & H2 & Hok).
  apply bind_ok_inv in Hok. destruct Hok as (h3 & H3 & _).
  apply Forall_app. split; [|apply Forall_app; split].
  - apply entity2html_ok. now rewrite H1.
  - apply entities2html_ok. now rewrite H2.
  - apply entity2html_ok. now rewrite H3.
Qed.

Lemma blocks2html_ok (blocks : list BlockLayout) :
  is_ok (blocks2html blocks) = true ->
  Forall classified (flat_map block_tags blocks).
Proof.
  unfold blocks2html. intros Hok. apply bind_ok_inv in Hok.
  destruct Hok as (hs & Hhs & _).
  assert (Hall : is_ok (for_each block2html blocks) = true)
    by now rewrite Hhs.
  apply for_each_ok in Hall. apply Forall_flat_map.
  revert Hall. apply Forall_impl. exact block2html_ok.
Qed.

Lemma section2html_ok (section : Section) (template : string) :
  is_ok (section2html section template) = true ->
  Forall classified (section_tags_rendered section).
Proof.
  unfold section2html, section_tags_rendered, section_hdrvars,
    section_entities, section_tables, section_blocks, section_tags.
  destruct (String.eqb (section_name section) "header") eqn:Eh;
    [destruct (section_data section); simpl; try discriminate; constructor|].
  cbn [existsb]. cbn [orb].
  destruct (String.eqb (section_name section) "classes"
            || (String.eqb (section_name section) "objects"
                || (String.eqb (section_name section) "entities" || false)))
    eqn:Ee.
  { destruct (section_data section); simpl; try discriminate.
    intros Hok. apply bind_ok_inv in Hok. destruct Hok as (b & Hb & _).
    apply entities2html_ok. now rewrite Hb. }
  apply orb_false_iff in Ee. destruct Ee as [E1 Ee].
  apply orb_false_iff in Ee. destruct Ee as [E2 Ee].
  apply orb_false_iff in Ee. destruct Ee as [E3 _].
  rewrite E1, E2, E3. cbn [orb].
  destruct (String.eqb (section_name section) "tables") eqn:Et.
  { destruct (section_data section); simpl; try discriminate.
    intros Hok. apply bind_ok_inv in Hok. destruct Hok as (b & Hb & _).
    apply tables2html_ok. now rewrite Hb. }
  destruct (String.eqb (section_name section) "blocks") eqn:Eb.
  { destruct (section_data section); simpl; try discriminate.
    intros Hok. apply bind_ok_inv in Hok. destruct Hok as (b & Hb & _).
    apply blocks2html_ok. now rewrite Hb. }
  destruct (section_data section); simpl; try discriminate.
  intros Hok. apply bind_ok_inv in Hok. destruct Hok as (b & Hb & _).
  apply tags2html_ok. now rewrite Hb.
Qed.

Lemma sections2html_ok (dwg : Drawing) :
  is_ok (sections2html dwg) = true -> Forall classified (tags_rendered dwg).
Proof.
  unfold sections2html, tags_rendered. intros Hok.
  apply bind_ok_inv in Hok. destruct Hok as (hs & Hhs & _).
  match type of Hhs with
  | for_each ?f ?l = _ => assert (Hall : is_ok (for_each f l) = true)
      by now rewrite Hhs
  end.
  apply for_each_ok in Hall. apply Forall_flat_map.
  apply Forall_forall. intros section Hin.
  apply In_nth_error in Hin. destruct Hin as (i & Hi).
  apply enumerate_nth in Hi. apply nth_error_In in Hi.
  rewrite Forall_forall in Hall. specialize (Hall _ Hi).
  cbv beta iota in Hall.
  apply bind_ok_inv in Hall. destruct Hall as (tpl & _ & Hall).
  exact (section2html_ok _ _ Hall).
Qed.

End Failures.

Section Propagation.
Context `{Collaborators}.

Lemma dxf2html_raise (dwg : Drawing) (e : exn) :
  sections2html dwg = Raise e -> dxf2html dwg = Raise e.
Proof. intros E. unfold dxf2html. now rewrite E. Qed.

Lemma sections2html_raise (dwg : Drawing) (before after : list Section)
      (section : Section) (e : exn) :
  sections dwg = (before ++ section :: after)%list ->
  is_ok (sections2html {| filename := filename dwg; sections := before |})
  = true ->
  section2html section
    (section_template (upper (section_name section))
       (Z.of_nat (length before))) = Raise e ->
  sections2html dwg = Raise e.
Proof.
  intros Hsec Hbefore Hsection. unfold sections2html in *.
  apply bind_ok_inv in Hbefore. destruct Hbefore as (hs & Hhs & _).
  cbn [sections] in Hhs. rewrite Hsec.
  destruct (enumerate_app_cons before after section) as (rest & ->).
  rewrite for_each_raise with (e := e) (ys := hs); [reflexivity|exact Hhs|].
  cbv beta iota. rewrite create_section_html_template_eq. exact Hsection.
Qed.

End Propagation.

(** ** Names *)

Section Names.
Context `{Collaborators}.

(** C10: the type name of an entity, the name of a table (in upper
    case) and the name of a block layout are put into the page as they
    are, without escaping; the page of a document with an entity whose
    type name holds [<], [>] and [&] has these characters in the title
    of the entity. *)
Theorem names_not_escaped :
  (forall entity body,
      tags2html (tags entity) = Ok body ->
      entity2html entity
      = Ok (py "<div class='dxf-entity'><h3>" ++ dxftype entity
            ++ py "</h3>\n" ++ body ++ py "\n</div>"))
  /\ (forall navigation table header entries,
         tags2html (_table_header table) = Ok header ->
         entities2html (table_entries table) = Ok entries ->
         table2html navigation table
         = Ok (py "<div class='dxf-block'>\n<h2>" ++ upper (table_name table)
               ++ py "</h2>\n" ++ navigation ++ py "\n"
               ++ entity_block "TABLE HEADER" header ++ py "\n" ++ entries
               ++ py "\n</div>"))
  /\ (forall b block_html entities_html endblk_html,
         entity2html (block b) = Ok block_html ->
         entities2html (block_entities b) = Ok entities_html ->
         entity2html (endblk b) = Ok endblk_html ->
         block2html b
         = Ok (py "<div class='dxf-block'>\n<h2>" ++ block_name b
               ++ py "</h2>\n" ++ block_html ++ py "\n" ++ entities_html
               ++ py "\n" ++ endblk_html ++ py "\n</div>"))
  /\ (exists entity html,
         contains "<" (dxftype entity) = true
         /\ contains ">" (dxftype entity) = true
         /\ contains "&" (dxftype entity) = true
         /\ escape (dxftype entity) <> dxftype entity
         /\ entity2html entity = Ok html
         /\ contains ("<h3>" ++ dxftype entity ++ "</h3>") html = true)
  /\ (exists page,
         @dxf2html example_collaborators example_drawing = Ok page
         /\ In markup_entity (entities_of example_drawing)
         /\ contains ("<h3>" ++ dxftype markup_entity ++ "</h3>") page = true).
Proof.
  split; [|split; [|split; [|split]]].
  - intros entity body Hbody. unfold entity2html. now rewrite Hbody.
  - intros navigation table header entries Hh He. unfold table2html.
    rewrite Hh. cbn [bind].
    change (format [] [("name", "TABLE HEADER"); ("tags", header)]
              ENTITY_TEMPLATE)
      with (Ok (entity_block "TABLE HEADER" header)).
    cbn [bind]. now rewrite He.
  - intros b h1 h2 h3 H1 H2 H3. unfold block2html.
    now rewrite H1, H2, H3.
  - exists {| dxftype := "<b>&"; tags := [] |}.
    eexists. repeat split; try reflexivity.
    unfold escape. simpl dxftype. destruct escape_quote; discriminate.
  - eexists. split; [vm_compute; reflexivity|].
    split; [vm_compute; tauto | vm_compute; reflexivity].
Qed.

End Names.

(** * More of the module *)

(** ** The code sets, the type labels and the rows *)

Lemma code_sets_apart (x : Z) :
  mem x HANDLE_DEFINITIONS && mem x HANDLE_LINKS = false
  /\ mem x HANDLE_DEFINITIONS && mem x GROUP_MARKERS = false
  /\ mem x HANDLE_LINKS && mem x GROUP_MARKERS = false.
Proof.
  destruct (mem x HANDLE_DEFINITIONS) eqn:Hd;
    destruct (mem x HANDLE_LINKS) eqn:Hl;
    destruct (mem x GROUP_MARKERS) eqn:Hg; simpl; try tauto; exfalso;
    try (apply HANDLE_DEFINITIONS_spec in Hd);
    try (apply HANDLE_LINKS_spec in Hl);
    try (apply GROUP_MARKERS_spec in Hg); lia.
Qed.

(** X1: no group code is in two of the three code sets: a handle
    definition is no handle link, and a group marker is neither. *)
Theorem code_sets_disjoint (x : Z) :
  mem x HANDLE_DEFINITIONS && mem x HANDLE_LINKS = false
  /\ mem x HANDLE_DEFINITIONS && mem x GROUP_MARKERS = false
  /\ mem x HANDLE_LINKS && mem x GROUP_MARKERS = false.
Proof. exact (code_sets_apart x). Qed.

Section Labels.
Context `{Collaborators}.

(** X2: [tag_type_str] returns one of the three labels of [TAG_TYPES];
    a type that is no key of [TAG_TYPES] is a [KeyError], and an
    exception of [tag_type] is passed on. *)
Theorem tag_type_str_cases (c : Z) :
  (forall label,
      tag_type_str c = Ok label ->
      label = "<int>" \/ label = "<float>" \/ label = "<str>")
  /\ (tag_type c = Ok Tint -> tag_type_str c = Ok "<int>")
  /\ (tag_type c = Ok Tfloat -> tag_type_str c = Ok "<float>")
  /\ (tag_type c = Ok Tustr -> tag_type_str c = Ok "<str>")
  /\ (forall name,
         tag_type c = Ok (Tother name) ->
         tag_type_str c = Raise (KeyError name))
  /\ (forall e, tag_type c = Raise e -> tag_type_str c = Raise e).
Proof.
  unfold tag_type_str. split; [|repeat split].
  - intros label. destruct (tag_type c) as [[| | |name]| |]; simpl;
      intros E; try discriminate; injection E as <-; tauto.
  - now intros ->.
  - now intros ->.
  - now intros ->.
  - now intros name ->.
  - now intros e ->.
Qed.

Lemma classified_label (tag : DXFTag) :
  classified tag -> exists label, tag_type_str (code tag) = Ok label.
Proof.
  unfold classified. destruct (tag_type_str (code tag)) as [l| |];
    simpl; try discriminate. now exists l.
Qed.

Lemma for_each_returns {A B : Type} (f : A -> result B) (xs : list A) :
  Forall (fun x => is_ok (f x) = true) xs -> is_ok (for_each f xs) = true.
Proof.
  induction 1 as [|x xs Hx _ IH]; [reflexivity|]. simpl.
  destruct (f x); simpl in *; try discriminate.
  destruct (for_each f xs); simpl in *; try discriminate. reflexivity.
Qed.

Lemma tags2html_returns (tags : list DXFTag) :
  Forall classified tags -> is_ok (tags2html tags) = true.
Proof.
  intros Hall.
  destruct (for_each_tag2html_total tags) as (rows & Hrows).
  { revert Hall. apply Forall_impl. exact classified_label. }
  unfold tags2html.
  now rewrite (for_each_marked tags rows (for_each_inv _ _ _ Hrows)).
Qed.

(** X3: the tag-stream renderer returns exactly when the group code of
    every tag has a type label; no value and no text can make it fail. *)
Theorem tags2html_returns_iff (tags : list DXFTag) :
  is_ok (tags2html tags) = true
  <-> Forall (fun tag => is_ok (tag_type_str (code tag)) = true) tags.
Proof. split; [apply tags2html_ok | apply tags2html_returns]. Qed.

(** X4: the row of a group marker is always the plain row, in its marker
    container; the row of a handle definition or of a handle link is never
    put into a marker container. *)
Theorem marker_rows_are_plain (tag : DXFTag) (label : string) :
  tag_type_str (code tag) = Ok label ->
  let c := str_int (code tag) in
  let t := escape label in
  let v := escape (ustr (value tag)) in
  (mem (code tag) GROUP_MARKERS = true ->
   tags2html [tag]
   = Ok (py "<div class='dxf-tags'>\n"
         ++ py "<div class='tag-group-marker'>" ++ plain_row c t v
         ++ py "</div>" ++ py "\n</div>"))
  /\ (mem (code tag) HANDLE_DEFINITIONS = true ->
      tags2html [tag]
      = Ok (py "<div class='dxf-tags'>\n" ++ handle_def_row c t v
            ++ py "\n</div>"))
  /\ (mem (code tag) HANDLE_LINKS = true ->
      tags2html [tag]
      = Ok (py "<div class='dxf-tags'>\n" ++ handle_link_row c t v
            ++ py "\n</div>")).
Proof.
  intros Hlabel c t v.
  pose proof (code_sets_apart (code tag)) as (Hdl & Hdg & Hlg).
  assert (E : tags2html [tag]
              = (h <- tag2html tag ;; r <- group_marker tag h ;;
                 Ok (tags_block [r]))).
  { unfold tags2html. cbn [for_each bind].
    destruct (tag2html tag) as [h| |]; cbn [bind]; try reflexivity.
    rewrite group_marker_eq. reflexivity. }
  rewrite E, (tag2html_eq tag label Hlabel). cbn [bind].
  rewrite group_marker_eq. cbn [bind].
  split; [|split]; intros Hm; rewrite Hm in *.
  - destruct (mem (code tag) HANDLE_DEFINITIONS); [discriminate|].
    destruct (mem (code tag) HANDLE_LINKS); [discriminate|].
    unfold tags_block, marker_row. cbn [join]. now rewrite !append_assoc.
  - destruct (mem (code tag) GROUP_MARKERS); [discriminate|]. reflexivity.
  - destruct (mem (code tag) GROUP_MARKERS);
      [rewrite andb_true_r in Hlg; discriminate|].
    destruct (mem (code tag) HANDLE_DEFINITIONS); [discriminate|].
    reflexivity.
Qed.

(** X5: a handle link finds its handle definition: when the two values
    have the same text, whatever their types, the target of the
    hyperlink of the link row is the [id] of the definition row. *)
Theorem handle_link_meets_definition (definition link : DXFTag)
        (row_d row_l : string) :
  mem (code definition) HANDLE_DEFINITIONS = true ->
  mem (code link) HANDLE_LINKS = true ->
  ustr (value definition) = ustr (value link) ->
  tag2html definition = Ok row_d ->
  tag2html link = Ok row_l ->
  exists anchor,
    anchor = escape (ustr (value link))
    /\ has_anchor row_d anchor
    /\ has_href row_l anchor.
Proof.
  intros Hd Hl Hv Hrd Hrl. exists (escape (ustr (value link))).
  split; [reflexivity|].
  assert (Ld : exists label, tag_type_str (code definition) = Ok label).
  { apply classified_label, tag2html_ok. now rewrite Hrd. }
  assert (Ll : exists label, tag_type_str (code link) = Ok label).
  { apply classified_label, tag2html_ok. now rewrite Hrl. }
  destruct Ld as (ld & Ld), Ll as (ll & Ll).
  rewrite (tag2html_eq _ _ Ld), Hd in Hrd. injection Hrd as <-.
  rewrite (tag2html_eq _ _ Ll), (handle_link_not_definition _ Hl), Hl in Hrl.
  injection Hrl as <-. rewrite Hv. split.
  - exists (py "<div class='dxf-tag'><span"),
      (py " class='tag-code'>" ++ str_int (code definition)
       ++ py "</span> <span class='var-type'>" ++ escape ld
       ++ py "</span> <span class='tag-value'>" ++ escape (ustr (value link))
       ++ py "</span></div>").
    reflexivity.
  - exists (py "<div class='dxf-tag'><span class='tag-code'>"
            ++ str_int (code link) ++ " " ++ escape ll
            ++ py "</span> <a class='tag-value' "),
      (py ">" ++ escape (ustr (value link)) ++ py "</a></div>").
    unfold handle_link_row. now rewrite !append_assoc.
Qed.

End Labels.

(** ** Entities, tables and blocks *)

Section Containers.
Context `{Collaborators}.

Lemma for_each_bodies {A : Type} (f : A -> result string)
      (g : A -> string -> string) (h : A -> result string)
      (xs : list A) (bodies : list string) :
  (forall x body, h x = Ok body -> f x = Ok (g x body)) ->
  Forall2 (fun x body => h x = Ok body) xs bodies ->
  for_each f xs = Ok (map (fun '(x, body) => g x body) (combine xs bodies)).
Proof.
  intros Hf. induction 1 as [|x body xs bodies Hx _ IH]; [reflexivity|].
  cbn [for_each combine map]. rewrite (Hf x body Hx). cbn [bind].
  now rewrite IH.
Qed.

Lemma entity2html_eq (entity : Entity) (body : string) :
  tags2html (tags entity) = Ok body ->
  entity2html entity = Ok (entity_block (dxftype entity) body).
Proof. intros Hbody. unfold entity2html. now rewrite Hbody. Qed.

(** X6: the entity-sequence renderer returns one titled block per
    entity, in the order of the entities: the title is the type name and
    the body is the rendering of the entity's tags. *)
Theorem entities2html_blocks (entities : list Entity) (bodies : list string) :
  Forall2 (fun entity body => tags2html (tags entity) = Ok body)
    entities bodies ->
  entities2html entities
  = Ok (py "<div class='dxf-entities'>\n"
        ++ join (py "\n")
             (map (fun '(entity, body) =>
                     py "<div class='dxf-entity'><h3>" ++ dxftype entity
                     ++ py "</h3>\n" ++ body ++ py "\n</div>")
                (combine entities bodies))
        ++ py "\n</div>").
Proof.
  intros Hbodies. unfold entities2html.
  rewrite (for_each_bodies entity2html
             (fun entity body => entity_block (dxftype entity) body)
             (fun entity => tags2html (tags entity)) entities bodies
             entity2html_eq Hbodies).
  reflexivity.
Qed.

Lemma table2html_eq (navigation : string) (table : Table)
      (header entries : string) :
  tags2html (_table_header table) = Ok header ->
  entities2html (table_entries table) = Ok entries ->
  table2html navigation table
  = Ok (table_block (upper (table_name table)) navigation
          (entity_block "TABLE HEADER" header) entries).
Proof.
  intros Hh He. unfold table2html. rewrite Hh. cbn [bind].
  change (format [] [("name", "TABLE HEADER"); ("tags", header)]
            ENTITY_TEMPLATE)
    with (Ok (entity_block "TABLE HEADER" header)).
  cbn [bind]. now rewrite He.
Qed.

(** X7: the table renderer returns one block per table, in the order of
    the tables: the title is the name in upper case, the navigation bar
    is empty (the line between the title and the header block is empty),
    the header tags stand in an entity block titled [TABLE HEADER], and
    the entries follow.  The blocks stand in their container without a
    line break around them. *)
Theorem tables2html_blocks (tables : list Table)
        (parts : list (string * string)) :
  Forall2 (fun table part =>
             tags2html (_table_header table) = Ok (fst part)
             /\ entities2html (table_entries table) = Ok (snd part))
    tables parts ->
  tables2html tables
  = Ok (py "<div id='dxf-tables' class='dxf-tables'>"
        ++ join (py "\n")
             (map (fun '(table, (header, entries)) =>
                     table_block (upper (table_name table)) EmptyString
                       (entity_block "TABLE HEADER" header) entries)
                (combine tables parts))
        ++ py "</div>").
Proof.
  intros Hparts. unfold tables2html, create_table_navigation.
  assert (E : for_each (table2html EmptyString) tables
              = Ok (map (fun '(table, (header, entries)) =>
                           table_block (upper (table_name table)) EmptyString
                             (entity_block "TABLE HEADER" header) entries)
                      (combine tables parts))).
  { induction Hparts as [|table [header entries] tables parts (Hh & He) _ IH];
      [reflexivity|].
    cbn [for_each combine map]. simpl fst in Hh. simpl snd in He.
    rewrite (table2html_eq EmptyString table header entries Hh He).
    cbn [bind]. now rewrite IH. }
  rewrite E. reflexivity.
Qed.

Lemma block2html_eq (b : BlockLayout) (block_html entities_html endblk_html : string) :
  entity2html (block b) = Ok block_html ->
  entities2html (block_entities b) = Ok entities_html ->
  entity2html (endblk b) = Ok endblk_html ->
  block2html b
  = Ok (block_block (block_name b) block_html entities_html endblk_html).
Proof. intros H1 H2 H3. unfold block2html. now rewrite H1, H2, H3. Qed.

(** X8: the block renderer returns one block per block layout, in the
    order of the layouts; a block holds the start entity, the entities
    of the layout and the end entity, in this order, under the name of
    the layout as it is (not in upper case). *)
Theorem blocks2html_blocks (blocks : list BlockLayout)
        (parts : list (string * string * string)) :
  Forall2 (fun b part =>
             entity2html (block b) = Ok (fst (fst part))
             /\ entities2html (block_entities b) = Ok (snd (fst part))
             /\ entity2html (endblk b) = Ok (snd part))
    blocks parts ->
  blocks2html blocks
  = Ok (py "<div id='dxf-blocks' class='dxf-blocks'>\n"
        ++ join (py "\n")
             (map (fun '(b, (block_html, entities_html, endblk_html)) =>
                     block_block (block_name b) block_html entities_html
                       endblk_html)
                (combine blocks parts))
        ++ py "\n</div>").
Proof.
  intros Hparts. unfold blocks2html.
  assert (E : for_each block2html blocks
              = Ok (map (fun '(b, (block_html, entities_html, endblk_html)) =>
                           block_block (block_name b) block_html entities_html
                             endblk_html)
                      (combine blocks parts))).
  { induction Hparts as [|b [[h1 h2] h3] blocks parts (H1 & H2 & H3) _ IH];
      [reflexivity|].
    cbn [for_each combine map]. simpl in H1, H2, H3.
    rewrite (block2html_eq b h1 h2 h3 H1 H2 H3). cbn [bind]. now rewrite IH. }
  rewrite E. reflexivity.
Qed.

(** X9: the parts of a table and of a block are rendered in the order
    of the source, and the first exception is the result: the header of
    a table before its entries; the start entity of a block before its
    entities, and these before its end entity. *)
Theorem first_failure_wins (e : exn) :
  (forall navigation table,
      tags2html (_table_header table) = Raise e ->
      table2html navigation table = Raise e)
  /\ (forall navigation table header,
         tags2html (_table_header table) = Ok header ->
         entities2html (table_entries table) = Raise e ->
         table2html navigation table = Raise e)
  /\ (forall b,
         entity2html (block b) = Raise e -> block2html b = Raise e)
  /\ (forall b block_html,
         entity2html (block b) = Ok block_html ->
         entities2html (block_entities b) = Raise e ->
         block2html b = Raise e)
  /\ (forall b block_html entities_html,
         entity2html (block b) = Ok block_html ->
         entities2html (block_entities b) = Ok entities_html ->
         entity2html (endblk b) = Raise e ->
         block2html b = Raise e)
  /\ (forall before entity after blocks_html,
         for_each entity2html before = Ok blocks_html ->
         tags2html (tags entity) = Raise e ->
         entities2html (before ++ entity :: after) = Raise e).
Proof.
  repeat split.
  - intros navigation table Hh. unfold table2html. now rewrite Hh.
  - intros navigation table header Hh He. unfold table2html.
    rewrite Hh. cbn [bind].
    change (format [] [("name", "TABLE HEADER"); ("tags", header)]
              ENTITY_TEMPLATE)
      with (Ok (entity_block "TABLE HEADER" header)).
    cbn [bind]. now rewrite He.
  - intros b H1. unfold block2html. now rewrite H1.
  - intros b h1 H1 H2. unfold block2html. now rewrite H1, H2.
  - intros b h1 h2 H1 H2 H3. unfold block2html. now rewrite H1, H2, H3.
  - intros before entity after hs Hbefore Hentity. unfold entities2html.
    rewrite for_each_raise with (e := e) (ys := hs); [reflexivity|exact Hbefore|].
    unfold entity2html. now rewrite Hentity.
Qed.

End Containers.

(** ** Header variables *)

Section HeaderVars.
Context `{Collaborators}.

Lemma vartype_point (c : Z) (p : list pynumber) :
  vartype (PointVar c p)
  = match p with
    | [] | [_; _] => Ok "<point 2D>"
    | [_] | [_; _; _] => Ok "<point 3D>"
    | _ => Raise IndexError
    end.
Proof.
  destruct p as [|x0 [|x1 [|x2 [|x3 p]]]]; try reflexivity.
  unfold vartype. cbn [ispoint getpoint bind]. unfold getitem.
  cbn [length].
  replace (Z.of_nat (S (S (S (S (length p))))) - 2 <? 0) with false
    by (symmetry; apply Z.ltb_ge; lia).
  replace (Z.of_nat (S (S (S (S (length p))))) - 2 <? Z.of_nat 2) with false
    by (symmetry; apply Z.ltb_ge; lia).
  now rewrite andb_false_r.
Qed.

(** X10: the label of a point is taken from a pair of labels at index
    [len - 2], with Python's indexing: four or more coordinates are an
    [IndexError], which ends the rendering of the header, while no
    coordinate counts from the end of the pair as 2D and one coordinate
    as 3D.  The group code of a point is never looked up. *)
Theorem vartype_point_bounds (name : string) (c : Z) (p : list pynumber) :
  ((length p >= 4)%nat ->
   vartype (PointVar c p) = Raise IndexError
   /\ forall before after rows,
       for_each hdrvar2html before = Ok rows ->
       hdrvars2html (before ++ (name, PointVar c p) :: after)
       = Raise IndexError)
  /\ (length p = 0%nat -> vartype (PointVar c p) = Ok "<point 2D>")
  /\ (length p = 1%nat -> vartype (PointVar c p) = Ok "<point 3D>")
  /\ ((length p <= 3)%nat ->
      exists label,
        (label = "<point 2D>" \/ label = "<point 3D>")
        /\ hdrvar2html (name, PointVar c p)
           = Ok (plain_row name (escape label) (escape (ustr_tuple p)))).
Proof.
  rewrite vartype_point. split; [|split; [|split]].
  - intros Hp.
    assert (E : vartype (PointVar c p) = Raise IndexError).
    { rewrite vartype_point.
      destruct p as [|x0 [|x1 [|x2 [|x3 p]]]]; simpl in Hp; try lia.
      reflexivity. }
    rewrite vartype_point in E. split; [exact E|].
    intros before after rows Hbefore. unfold hdrvars2html.
    rewrite for_each_raise with (e := IndexError) (ys := rows);
      [reflexivity|exact Hbefore|].
    unfold hdrvar2html, var2str. cbn [ispoint getpoint bind].
    rewrite vartype_point. now rewrite E.
  - destruct p; [reflexivity|discriminate].
  - destruct p as [|x0 [|x1 p]]; try discriminate. reflexivity.
  - intros Hp.
    assert (E : exists label,
               (label = "<point 2D>" \/ label = "<point 3D>")
               /\ vartype (PointVar c p) = Ok label).
    { rewrite vartype_point.
      destruct p as [|x0 [|x1 [|x2 [|x3 p]]]]; simpl in Hp; try lia;
        eexists; split; try reflexivity; tauto. }
    destruct E as (label & Hl & E). exists label. split; [exact Hl|].
    unfold hdrvar2html, var2str. cbn [ispoint getpoint bind].
    rewrite E. reflexivity.
Qed.

Lemma hdrvar2html_returns_iff (item : string * HeaderVar) :
  is_ok (hdrvar2html item) = true <-> labelled (snd item).
Proof.
  destruct item as [name [c v|c p]]; unfold hdrvar2html, var2str, labelled;
    cbn [snd ispoint getpoint hdrvar_value hdrvar_code bind].
  - change (vartype (ScalarVar c v)) with (tag_type_str c).
    destruct (tag_type_str c) as [l| |]; simpl; split; congruence.
  - rewrite vartype_point.
    destruct p as [|x0 [|x1 [|x2 [|x3 p]]]]; simpl; split;
      try reflexivity; try lia; try discriminate; intros; lia.
Qed.

Lemma hdrvars2html_labelled (hdrvars : list (string * HeaderVar)) :
  is_ok (hdrvars2html hdrvars) = true <-> Forall labelled (map snd hdrvars).
Proof.
  rewrite Forall_map. split.
  - unfold hdrvars2html. intros Hok. apply bind_ok_inv in Hok.
    destruct Hok as (rows & Hrows & _).
    assert (Hall : is_ok (for_each hdrvar2html hdrvars) = true)
      by now rewrite Hrows.
    apply for_each_ok in Hall. revert Hall. apply Forall_impl.
    intros item. apply hdrvar2html_returns_iff.
  - intros Hall.
    assert (Hrows : is_ok (for_each hdrvar2html hdrvars) = true).
    { apply for_each_returns. revert Hall. apply Forall_impl.
      intros item. apply hdrvar2html_returns_iff. }
    unfold hdrvars2html.
    destruct (for_each hdrvar2html hdrvars); try discriminate. reflexivity.
Qed.

(** X11: the header renderer returns exactly when every variable is a
    point of at most three coordinates or a value whose group code has a
    type label. *)
Theorem hdrvars2html_returns_iff (hdrvars : list (string * HeaderVar)) :
  is_ok (hdrvars2html hdrvars) = true
  <-> Forall (fun v =>
                match v with
                | PointVar _ p => (length p <= 3)%nat
                | ScalarVar c _ => is_ok (tag_type_str c) = true
                end) (map snd hdrvars).
Proof. exact (hdrvars2html_labelled hdrvars). Qed.

End HeaderVars.

(** ** Anchors and wrappers *)

(** X12: the anchor ids are one per index: [SECTION_ID] gives different
    ids for different indices. *)
Theorem section_ids_distinct (i j : Z) :
  format [str_int i] [] SECTION_ID = format [str_int j] [] SECTION_ID
  <-> i = j.
Proof.
  split; [|now intros ->].
  rewrite !section_id_format. intros [= E]. now apply str_int_inj.
Qed.

Lemma close_brace_alone (args : list string) (kwargs : list (string * string))
      (auto : nat) (post rest : string) :
  String.prefix "}" post = false ->
  format_from args kwargs CloseBrace auto (post ++ String "<" rest)
  = Raise ValueError.
Proof.
  destruct post as [|c post]; [reflexivity|].
  intros Hp. simpl in Hp.
  change (String c post ++ String "<" rest)
    with (String c (post ++ String "<" rest)).
  cbn [format_from].
  destruct (ascii_dec "}" c) as [<-|n].
  - now destruct post.
  - replace (Ascii.eqb c "}") with false; [reflexivity|].
    symmetry. apply Ascii.eqb_neq. congruence.
Qed.

Lemma format_from_close (args : list string) (kwargs : list (string * string))
      (auto : nat) (rest : string) :
  format_from args kwargs Text auto ("}" ++ rest)
  = format_from args kwargs CloseBrace auto rest.
Proof. reflexivity. Qed.

Lemma format_from_field (args : list string) (kwargs : list (string * string))
      (auto : nat) (rest : string) :
  format_from args kwargs Text auto ("{}" ++ rest)
  = subst (positional args auto) (format_from args kwargs Text (S auto) rest).
Proof. reflexivity. Qed.

Lemma format_from_doubled (args : list string) (kwargs : list (string * string))
      (auto : nat) (rest : string) :
  format_from args kwargs Text auto ("{{" ++ rest)
  = emit "{" (format_from args kwargs Text auto rest).
Proof. reflexivity. Qed.

Lemma append_cons (c : ascii) (a b : string) :
  String c a ++ b = String c (a ++ b).
Proof. reflexivity. Qed.

Section Wrappers.
Context `{Collaborators}.

(** X13: the navigation of a wrapper meets its neighbours.  The
    wrapper built for an index is [section_wrapper] with the [id] of that
    index, the link named [previous] to the [id] of the index before and
    the link named [next] to the [id] of the index after: the [next]
    link of a wrapper goes to the [id] the wrapper of the next index
    carries, the [previous] link of that one goes back to the [id] of
    the first, and the two ids differ. *)
Theorem navigation_meets_neighbours (name name' : string) (index : Z) :
  exists this next before after,
    create_section_html_template name index
    = Ok (section_wrapper this (upper name) before next)
    /\ create_section_html_template name' (index + 1)
       = Ok (section_wrapper next (upper name') this after)
    /\ this = section_id index
    /\ next = section_id (index + 1)
    /\ before = section_id (index - 1)
    /\ after = section_id (index + 2)
    /\ this <> next.
Proof.
  exists (section_id index), (section_id (index + 1)),
    (section_id (index - 1)), (section_id (index + 2)).
  rewrite !create_section_html_template_eq.
  unfold section_template, section_wrapper.
  replace (index + 1 - 1) with index by lia.
  replace (index + 1 + 1) with (index + 2) by lia.
  repeat split.
  intros E. apply section_id_inj in E. lia.
Qed.

(** X14: the title of a section is part of the wrapper template, so
    [section2html] reads it as format text when it fills in the body: a
    closing brace on its own is a [ValueError], a pair of braces is a
    field of its own, which takes the body and leaves none for the
    wrapper ([IndexError]), and a doubled opening brace comes out as one.
    A section of any other kind than the six known ones fails that way
    after its tags are rendered. *)
Theorem section_title_is_format_text (name : string) (index : Z)
        (body : string) (pre post : string) :
  brace_free pre = true ->
  (upper name = pre ++ "}" ++ post ->
   String.prefix "}" post = false ->
   (forall tpl,
       create_section_html_template name index = Ok tpl ->
       format [body] [] tpl = Raise ValueError)
   /\ (forall section ts,
          section_name section = name ->
          ~ In name ["header"; "classes"; "objects"; "entities"; "tables";
                     "blocks"] ->
          section_data section = TagsData ts ->
          tags2html ts = Ok body ->
          forall tpl,
            create_section_html_template name index = Ok tpl ->
            section2html section tpl = Raise ValueError))
  /\ (upper name = pre ++ "{}" ++ post ->
      brace_free post = true ->
      forall tpl,
        create_section_html_template name index = Ok tpl ->
        format [body] [] tpl = Raise IndexError)
  /\ (upper name = pre ++ "{{" ++ post ->
      brace_free post = true ->
      forall tpl,
        create_section_html_template name index = Ok tpl ->
        format [body] [] tpl
        = Ok (section_block (pre ++ "{" ++ post) index body)).
Proof.
  intros Hpre.
  assert (Head : forall rest : string,
             format [body] [] (section_template (pre ++ rest) index)
             = (r <- format_from [body] [] Text 0
                       (rest ++ py "</h2>\n<div><a href='#"
                        ++ section_id (index - 1)
                        ++ py "'>previous</a> <a href='#"
                        ++ section_id (index + 1)
                        ++ py "'>next</a></div>\n{}\n</div>\n") ;;
                Ok (py "<div id='" ++ section_id index
                    ++ py "' class='dxf-section'><h2>SECTION: "
                    ++ pre ++ r))).
  { intros rest. unfold format, section_template. rewrite !append_assoc.
    rewrite format_from_literal by (vm_compute; reflexivity).
    rewrite format_from_literal by apply section_id_brace_free.
    rewrite format_from_literal by (vm_compute; reflexivity).
    rewrite format_from_literal by exact Hpre.
    match goal with
    | |- context [format_from ?a ?k Text 0%nat ?t] =>
        destruct (format_from a k Text 0%nat t); reflexivity
    end. }
  assert (Tail : forall auto : nat,
             brace_free post = true ->
             format_from [body] [] Text auto
               (post ++ py "</h2>\n<div><a href='#" ++ section_id (index - 1)
                ++ py "'>previous</a> <a href='#" ++ section_id (index + 1)
                ++ py "'>next</a></div>\n{}\n</div>\n")
             = (r <- format_from [body] [] Text auto
                       (py "'>next</a></div>\n{}\n</div>\n") ;;
                Ok (post ++ py "</h2>\n<div><a href='#"
                    ++ section_id (index - 1)
                    ++ py "'>previous</a> <a href='#"
                    ++ section_id (index + 1) ++ r))).
  { intros auto Hpost.
    rewrite format_from_literal by exact Hpost.
    rewrite format_from_literal by (vm_compute; reflexivity).
    rewrite format_from_literal by apply section_id_brace_free.
    rewrite format_from_literal by (vm_compute; reflexivity).
    rewrite format_from_literal by apply section_id_brace_free.
    destruct (format_from [body] [] Text auto
                (py "'>next</a></div>\n{}\n</div>\n")); reflexivity. }
  assert (Field0 : format_from [body] [] Text 0
                     (py "'>next</a></div>\n{}\n</div>\n")
                   = Ok (py "'>next</a></div>\n" ++ body ++ py "\n</div>\n"))
    by (vm_compute; reflexivity).
  assert (Field1 : format_from [body] [] Text 1
                     (py "'>next</a></div>\n{}\n</div>\n")
                   = Raise IndexError)
    by (vm_compute; reflexivity).
  assert (Lt : py "</h2>\n<div><a href='#"
               = String "<" (py "/h2>\n<div><a href='#"))
    by (vm_compute; reflexivity).
  split; [|split].
  - intros Hname Hpost.
    assert (E : forall tpl,
               create_section_html_template name index = Ok tpl ->
               format [body] [] tpl = Raise ValueError).
    { intros tpl Htpl.
      rewrite create_section_html_template_eq in Htpl. injection Htpl as <-.
      rewrite Hname, Head, Lt, !append_assoc.
      rewrite format_from_close, append_cons.
      now rewrite (close_brace_alone _ _ _ _ _ Hpost). }
    split; [exact E|].
    intros section ts Hsn Hn Hdata Hbody tpl Htpl.
    rewrite <- Hsn in Hn. rewrite (section2html_other _ _ Hn).
    unfold section_tags. rewrite Hdata. cbn [bind]. rewrite Hbody.
    cbn [bind]. now apply E.
  - intros Hname Hpost tpl Htpl.
    rewrite create_section_html_template_eq in Htpl. injection Htpl as <-.
    rewrite Hname, Head, !append_assoc.
    rewrite format_from_field.
    rewrite (Tail 1%nat Hpost), Field1. reflexivity.
  - intros Hname Hpost tpl Htpl.
    rewrite create_section_html_template_eq in Htpl. injection Htpl as <-.
    rewrite Hname, Head, !append_assoc.
    rewrite format_from_doubled.
    rewrite (Tail 0%nat Hpost), Field0. cbn [bind emit].
    unfold section_block. now rewrite !append_assoc.
Qed.

End Wrappers.

(** ** The page *)

Section Page.
Context `{Collaborators}.

Lemma sections_toc_as_html_eq (dwg : Drawing) :
  sections_toc_as_html dwg
  = Ok (toc_block
          (map (fun '(index, section) =>
                  toc_entry (section_id index) (upper (section_name section)))
             (enumerate (sections dwg)))).
Proof.
  unfold sections_toc_as_html.
  rewrite for_each_map
    with (g := fun '(index, section) =>
                 toc_entry (section_id index) (upper (section_name section)));
    [reflexivity|].
  intros [index section] _. now rewrite section_id_format.
Qed.

Lemma dxf2html_eq (dwg : Drawing) (dxf_file : string) :
  sections2html dwg = Ok dxf_file ->
  dxf2html dwg
  = Ok (html_page (get_name dwg)
          (toc_block
             (map (fun '(index, section) =>
                     toc_entry (section_id index)
                       (upper (section_name section)))
                (enumerate (sections dwg))))
          dxf_file).
Proof.
  intros Hbody. unfold dxf2html.
  rewrite Hbody, sections_toc_as_html_eq. reflexivity.
Qed.

(** X15: [dxf2html] returns exactly when [sections2html] does, and
    passes its exception on.  The page is [HTML_TEMPLATE] ([html_page])
    with the table of contents, the sections, and, in the title and in
    the headline, the name of the document as it is, without escaping:
    [unknown] without a file name, else the base name of the file
    without its extension. *)
Theorem dxf2html_page (dwg : Drawing) :
  is_ok (dxf2html dwg) = is_ok (sections2html dwg)
  /\ (forall e, sections2html dwg = Raise e -> dxf2html dwg = Raise e)
  /\ (forall dxf_file,
         sections2html dwg = Ok dxf_file ->
         exists toc,
           sections_toc_as_html dwg = Ok toc
           /\ dxf2html dwg
              = Ok (html_page (get_name dwg) toc dxf_file))
  /\ (filename dwg = None -> get_name dwg = "unknown")
  /\ (forall f,
         filename dwg = Some f ->
         get_name dwg = fst (splitext (basename f))).
Proof.
  split; [|split; [|split; [|split]]].
  - destruct (sections2html dwg) as [body| |] eqn:E.
    + now rewrite (dxf2html_eq dwg body E).
    + now rewrite (dxf2html_raise dwg e E).
    + unfold dxf2html. now rewrite E.
  - apply dxf2html_raise.
  - intros body Hbody. eexists. split; [apply sections_toc_as_html_eq|].
    exact (dxf2html_eq dwg body Hbody).
  - intros E. unfold get_name. now rewrite E.
  - intros f E. unfold get_name. now rewrite E.
Qed.

(** X16: a document without sections is rendered: the page has the
    title of the document, a table of contents with an empty list and an
    empty container of sections. *)
Theorem dxf2html_no_sections (dwg : Drawing) :
  sections dwg = [] ->
  dxf2html dwg
  = Ok (html_page (get_name dwg)
          (py "<h2>Table of Contents</h2>\n<ul>\n\n</ul>")
          (py "<div class='dxf-sections'>\n\n</div>")).
Proof.
  intros Hs.
  assert (Hbody : sections2html dwg
                  = Ok (py "<div class='dxf-sections'>\n\n</div>")).
  { unfold sections2html. rewrite Hs. vm_compute. reflexivity. }
  rewrite (dxf2html_eq dwg _ Hbody), Hs.
  replace (toc_block
             (map (fun '(index, section) =>
                     toc_entry (section_id index)
                       (upper (section_name section)))
                (enumerate (@nil Section))))
    with (py "<h2>Table of Contents</h2>\n<ul>\n\n</ul>")
    by (vm_compute; reflexivity).
  reflexivity.
Qed.

End Page.

(** ** When the page is returned *)

Section Returns.
Context `{Collaborators}.

Lemma is_ok_intro {A : Type} (m : result A) (a : A) : m = Ok a -> is_ok m = true.
Proof. now intros ->. Qed.

Lemma is_ok_elim {A : Type} (m : result A) :
  is_ok m = true -> exists a, m = Ok a.
Proof. destruct m as [a| |]; simpl; try discriminate. now exists a. Qed.

Lemma entity2html_returns (entity : Entity) :
  Forall classified (tags entity) -> is_ok (entity2html entity) = true.
Proof.
  intros Hall. destruct (is_ok_elim _ (tags2html_returns _ Hall)) as (b & Hb).
  now rewrite (entity2html_eq entity b Hb).
Qed.

Lemma entities2html_returns (entities : list Entity) :
  Forall classified (entities_tags entities) ->
  is_ok (entities2html entities) = true.
Proof.
  intros Hall. apply Forall_flat_map in Hall.
  assert (Hes : is_ok (for_each entity2html entities) = true).
  { apply for_each_returns. revert Hall. apply Forall_impl.
    exact entity2html_returns. }
  destruct (is_ok_elim _ Hes) as (hs & Hhs).
  unfold entities2html. rewrite Hhs. reflexivity.
Qed.

Lemma table2html_returns (navigation : string) (table : Table) :
  Forall classified (table_tags table) ->
  is_ok (table2html navigation table) = true.
Proof.
  unfold table_tags. intros Hall. apply Forall_app in Hall.
  destruct Hall as (Hh & He).
  destruct (is_ok_elim _ (tags2html_returns _ Hh)) as (h & Hh').
  destruct (is_ok_elim _ (entities2html_returns _ He)) as (es & He').
  now rewrite (table2html_eq navigation table h es Hh' He').
Qed.

Lemma tables2html_returns (tables : list Table) :
  Forall classified (flat_map table_tags tables) ->
  is_ok (tables2html tables) = true.
Proof.
  intros Hall. apply Forall_flat_map in Hall.
  assert (Hts : is_ok (for_each (table2html (create_table_navigation tables))
                         tables) = true).
  { apply for_each_returns. revert Hall. apply Forall_impl.
    intros t. apply table2html_returns. }
  destruct (is_ok_elim _ Hts) as (hs & Hhs).
  unfold tables2html. rewrite Hhs. reflexivity.
Qed.

Lemma block2html_returns (b : BlockLayout) :
  Forall classified (block_tags b) -> is_ok (block2html b) = true.
Proof.
  unfold block_tags. intros Hall. apply Forall_app in Hall.
  destruct Hall as (H1 & Hall). apply Forall_app in Hall.
  destruct Hall as (H2 & H3).
  destruct (is_ok_elim _ (entity2html_returns _ H1)) as (h1 & E1).
  destruct (is_ok_elim _ (entities2html_returns _ H2)) as (h2 & E2).
  destruct (is_ok_elim _ (entity2html_returns _ H3)) as (h3 & E3).
  now rewrite (block2html_eq b h1 h2 h3 E1 E2 E3).
Qed.

Lemma blocks2html_returns (blocks : list BlockLayout) :
  Forall classified (flat_map block_tags blocks) ->
  is_ok (blocks2html blocks) = true.
Proof.
  intros Hall. apply Forall_flat_map in Hall.
  assert (Hbs : is_ok (for_each block2html blocks) = true).
  { apply for_each_returns. revert Hall. apply Forall_impl.
    exact block2html_returns. }
  destruct (is_ok_elim _ Hbs) as (hs & Hhs).
  unfold blocks2html. rewrite Hhs. reflexivity.
Qed.

Lemma known_name (name : string) :
  existsb (String.eqb name) ["classes"; "objects"; "entities"] = true
  <-> In name ["classes"; "objects"; "entities"].
Proof.
  rewrite existsb_exists. split.
  - intros (x & Hx & E). apply String.eqb_eq in E. now subst.
  - intros Hin. exists name. split; [exact Hin | apply String.eqb_refl].
Qed.

Lemma filled_wrapper (name : string) (index : Z) (body : result string) :
  brace_free name = true ->
  is_ok (b <- body ;; format [b] [] (section_template name index))
  = is_ok body.
Proof.
  intros Hname. destruct body as [b| |]; try reflexivity. cbn [bind].
  now rewrite (section_template_format name index b Hname).
Qed.

(** What a well-shaped section is rendered from. *)
Lemma section2html_shape (section : Section) (index : Z) :
  well_shaped section ->
  is_ok (section2html section
           (section_template (upper (section_name section)) index))
  = match section_data section with
    | HeaderData hdrvars => is_ok (hdrvars2html hdrvars)
    | EntityData entities => is_ok (entities2html entities)
    | TablesData tables => is_ok (tables2html tables)
    | BlocksData blocks => is_ok (blocks2html blocks)
    | TagsData tags => is_ok (tags2html tags)
    end.
Proof.
  intros (Hfree & Hshape).
  set (tpl := section_template (upper (section_name section)) index).
  assert (Htpl : forall body,
             is_ok (b <- body ;; format [b] [] tpl) = is_ok body)
    by (intros body; now apply filled_wrapper).
  clearbody tpl.
  destruct (section_data section) as [h|es|ts|bs|tags] eqn:Hdata.
  - unfold section2html, section_hdrvars. rewrite Hshape, Hdata.
    cbn [String.eqb Ascii.eqb Bool.eqb bind]. apply Htpl.
  - unfold section2html, section_entities.
    destruct (String.eqb_spec (section_name section) "header") as [E|_];
      [rewrite E in Hshape; simpl in Hshape;
       repeat (destruct Hshape as [Hshape|Hshape]; try discriminate);
       contradiction|].
    apply known_name in Hshape. rewrite Hshape, Hdata. cbn [bind].
    apply Htpl.
  - unfold section2html, section_tables. rewrite Hshape, Hdata.
    cbn [String.eqb Ascii.eqb Bool.eqb existsb orb bind]. apply Htpl.
  - unfold section2html, section_blocks. rewrite Hshape, Hdata.
    cbn [String.eqb Ascii.eqb Bool.eqb existsb orb bind]. apply Htpl.
  - rewrite (section2html_other _ _ Hshape). unfold section_tags.
    rewrite Hdata. cbn [bind]. apply Htpl.
Qed.

Lemma section_tags_rendered_shape (section : Section) :
  well_shaped section ->
  section_tags_rendered section
  = match section_data section with
    | HeaderData _ => []
    | EntityData entities => entities_tags entities
    | TablesData tables => flat_map table_tags tables
    | BlocksData blocks => flat_map block_tags blocks
    | TagsData tags => tags
    end.
Proof.
  intros (_ & Hshape). unfold section_tags_rendered.
  destruct (section_data section) as [h|es|ts|bs|tags].
  - reflexivity.
  - apply known_name in Hshape. now rewrite Hshape.
  - now rewrite Hshape.
  - now rewrite Hshape.
  - destruct (String.eqb_spec (section_name section) "header") as [E|_];
      [elim Hshape; rewrite E; simpl; tauto|].
    destruct (existsb (String.eqb (section_name section))
                ["classes"; "objects"; "entities"; "tables"; "blocks"])
      eqn:E5; [|reflexivity].
    apply existsb_exists in E5. destruct E5 as (x & Hx & E).
    apply String.eqb_eq in E. subst x. elim Hshape. simpl in *. tauto.
Qed.

Lemma section2html_returns_iff (section : Section) (index : Z) :
  well_shaped section ->
  is_ok (section2html section
           (section_template (upper (section_name section)) index)) = true
  <-> Forall classified (section_tags_rendered section)
      /\ Forall labelled (section_header_vars section).
Proof.
  intros Hshape.
  rewrite (section2html_shape section index Hshape),
    (section_tags_rendered_shape section Hshape).
  unfold section_header_vars.
  destruct (section_data section) as [h|es|ts|bs|tags].
  - rewrite hdrvars2html_labelled. intuition constructor.
  - split; [intros Hok; split; [now apply entities2html_ok | constructor]
           | intros (Hall & _); now apply entities2html_returns].
  - split; [intros Hok; split; [now apply tables2html_ok | constructor]
           | intros (Hall & _); now apply tables2html_returns].
  - split; [intros Hok; split; [now apply blocks2html_ok | constructor]
           | intros (Hall & _); now apply blocks2html_returns].
  - split; [intros Hok; split; [now apply tags2html_ok | constructor]
           | intros (Hall & _); now apply tags2html_returns].
Qed.

Lemma sections2html_returns_iff (dwg : Drawing) :
  Forall well_shaped (sections dwg) ->
  is_ok (sections2html dwg) = true
  <-> Forall classified (tags_rendered dwg)
      /\ Forall labelled (header_vars dwg).
Proof.
  intros Hshape. unfold tags_rendered, header_vars.
  rewrite !Forall_flat_map.
  assert (Each :
            is_ok (sections2html dwg) = true
            <-> Forall (fun item : Z * Section =>
                          is_ok (section2html (snd item)
                                   (section_template
                                      (upper (section_name (snd item)))
                                      (fst item))) = true)
                  (enumerate (sections dwg))).
  { unfold sections2html. split.
    - intros Hok. apply bind_ok_inv in Hok. destruct Hok as (hs & Hhs & _).
      match type of Hhs with
      | for_each ?f ?l = _ => assert (Hall : is_ok (for_each f l) = true)
          by now rewrite Hhs
      end.
      apply for_each_ok in Hall. revert Hall. apply Forall_impl.
      intros [i s] Hok. cbv beta iota in Hok.
      now rewrite create_section_html_template_eq in Hok.
    - intros Hall.
      match goal with
      | |- is_ok (bind (for_each ?f ?l) _) = true =>
          assert (Hhs : is_ok (for_each f l) = true)
      end.
      { apply for_each_returns. revert Hall. apply Forall_impl.
        intros [i s] Hok. cbv beta iota.
        now rewrite create_section_html_template_eq. }
      destruct (is_ok_elim _ Hhs) as (hs & ->). reflexivity. }
  rewrite Each, !Forall_forall. rewrite Forall_forall in Hshape. split.
  - intros Hall. split; intros s Hs;
      destruct (In_nth_error _ _ Hs) as (i & Hi);
      pose proof (nth_error_In _ _ (enumerate_nth _ _ _ Hi)) as Hitem;
      specialize (Hall _ Hitem); cbn [fst snd] in Hall;
      apply (section2html_returns_iff s _ (Hshape s Hs)) in Hall; tauto.
  - intros (Htags & Hvars) [i s] Hitem. cbn [fst snd].
    apply enumerate_In in Hitem. destruct Hitem as (_ & Hi).
    apply nth_error_In in Hi.
    apply (section2html_returns_iff s i (Hshape s Hi)). split.
    + exact (Htags s Hi).
    + exact (Hvars s Hi).
Qed.

(** X17: for a document whose sections hold what their names say and
    whose titles have no brace, [dxf2html] returns a page exactly when
    the group code of every tag it renders has a type label and every
    header variable is a point of at most three coordinates or a value
    whose group code has a type label. *)
Theorem dxf2html_returns_iff (dwg : Drawing) :
  Forall well_shaped (sections dwg) ->
  is_ok (dxf2html dwg) = true
  <-> Forall (fun tag => is_ok (tag_type_str (code tag)) = true)
        (tags_rendered dwg)
      /\ Forall labelled (header_vars dwg).
Proof.
  intros Hshape. rewrite <- (sections2html_returns_iff dwg Hshape).
  destruct (sections2html dwg) as [body| |] eqn:E.
  - now rewrite (dxf2html_eq dwg body E).
  - now rewrite (dxf2html_raise dwg e E).
  - unfold dxf2html. now rewrite E.
Qed.

End Returns.

(** ** The first failure is the result *)

Lemma flat_map_single {A B : Type} (f : A -> B) (xs : list A) :
  flat_map (fun x => [f x]) xs = map f xs.
Proof. induction xs as [|x xs IH]; simpl; [reflexivity | now rewrite IH]. Qed.

Lemma map_of_flat_map {A B C : Type} (f : B -> C) (g : A -> list B)
      (xs : list A) :
  map f (flat_map g xs) = flat_map (fun x => map f (g x)) xs.
Proof.
  induction xs as [|x xs IH]; simpl; [reflexivity|].
  now rewrite map_app, IH.
Qed.

Lemma flat_map_enumerate {A B : Type} (K : A -> list B) (xs : list A) :
  flat_map (fun item : Z * A => K (snd item)) (enumerate xs) = flat_map K xs.
Proof.
  unfold enumerate. generalize 0%nat.
  induction xs as [|x xs IH]; intros k; simpl; [reflexivity|].
  now rewrite IH.
Qed.

Section FirstFailure.
Context `{Collaborators}.

Lemma first_failure_nil (e : exn) : ~ first_failure [] e.
Proof.
  intros (before & c & after & E & _). now destruct before.
Qed.

Lemma first_failure_single (c : Z) (e : exn) :
  first_failure [c] e -> tag_type_str c = Raise e.
Proof.
  intros (before & c' & after & E & _ & Hc).
  destruct before as [|b before].
  - simpl in E. now injection E as ->.
  - simpl in E. injection E as _ E. now destruct before.
Qed.

Lemma first_failure_app (k1 k2 : list Z) (e : exn) :
  first_failure (k1 ++ k2) e ->
  first_failure k1 e \/ (Forall code_ok k1 /\ first_failure k2 e).
Proof.
  induction k1 as [|x k1 IH]; intros Hf.
  - right. split; [constructor | exact Hf].
  - destruct Hf as (before & c & after & E & Hb & Hc).
    destruct before as [|b before]; simpl in E; injection E as Ex E.
    + left. exists [], c, k1. subst x.
      repeat split; [constructor | exact Hc].
    + subst b. inversion Hb as [|? ? Hx Hb']; subst.
      destruct IH as [(b1 & c1 & a1 & Ek & Hb1 & Hc1)|(Hk1 & Hk2)].
      * exists before, c, after. auto.
      * left. exists (x :: b1), c1, a1. rewrite Ek.
        repeat split; [constructor; assumption | exact Hc1].
      * right. split; [constructor; assumption | exact Hk2].
Qed.

Lemma first_failure_flat_map {A : Type} (K : A -> list Z) (xs : list A)
      (e : exn) :
  first_failure (flat_map K xs) e ->
  exists before x after,
    xs = (before ++ x :: after)%list
    /\ Forall code_ok (flat_map K before)
    /\ first_failure (K x) e.
Proof.
  induction xs as [|x xs IH]; intros Hf.
  - now apply first_failure_nil in Hf.
  - simpl in Hf. apply first_failure_app in Hf.
    destruct Hf as [Hx|(Hok & Hrest)].
    + exists [], x, xs. repeat split; [constructor | exact Hx].
    + destruct (IH Hrest) as (before & y & after & -> & Hb & Hy).
      exists (x :: before), y, after. repeat split; [|exact Hy].
      simpl. apply Forall_app. now split.
Qed.

(** A loop over elements that each look up their codes in order ends in
    the exception of the first code without a label. *)
Lemma for_each_first_failure {A B : Type} (f : A -> result B)
      (K : A -> list Z) (Q : A -> Prop) (xs : list A) (e : exn) :
  (forall x, Q x -> Forall code_ok (K x) -> is_ok (f x) = true) ->
  (forall x, Q x -> first_failure (K x) e -> f x = Raise e) ->
  Forall Q xs ->
  first_failure (flat_map K xs) e ->
  for_each f xs = Raise e.
Proof.
  intros Hok Hraise HQ Hf.
  destruct (first_failure_flat_map K xs e Hf)
    as (before & x & after & -> & Hb & Hx).
  apply Forall_app in HQ. destruct HQ as (HQb & HQx).
  inversion HQx as [|? ? Hqx _]; subst.
  assert (Hbefore : is_ok (for_each f before) = true).
  { apply for_each_returns. apply Forall_flat_map in Hb.
    rewrite Forall_forall in HQb, Hb. apply Forall_forall.
    intros y Hy. apply Hok; [now apply HQb | now apply Hb]. }
  destruct (is_ok_elim _ Hbefore) as (ys & Hys).
  apply for_each_raise with (ys := ys); auto.
Qed.

Lemma classified_codes (tags : list DXFTag) :
  Forall code_ok (map code tags) <-> Forall classified tags.
Proof. now rewrite Forall_map. Qed.

Lemma tags2html_first (tags : list DXFTag) (e : exn) :
  first_failure (map code tags) e -> tags2html tags = Raise e.
Proof.
  intros Hf. unfold tags2html.
  rewrite for_each_first_failure
    with (K := fun tag => [code tag]) (Q := fun _ => True) (e := e);
    [reflexivity| | | |].
  - intros tag _ Hok. inversion Hok as [|? ? Hc _]; subst.
    destruct (classified_label tag Hc) as (label & Hlabel).
    rewrite (tag2html_eq tag label Hlabel). cbn [bind].
    now rewrite group_marker_eq.
  - intros tag _ Htag. apply first_failure_single in Htag.
    now rewrite (tag2html_raise tag e Htag).
  - apply Forall_forall. auto.
  - now rewrite flat_map_single.
Qed.

Lemma entity2html_first (entity : Entity) (e : exn) :
  first_failure (map code (tags entity)) e -> entity2html entity = Raise e.
Proof.
  intros Hf. unfold entity2html. now rewrite (tags2html_first _ e Hf).
Qed.

Lemma entities2html_first (entities : list Entity) (e : exn) :
  first_failure (map code (entities_tags entities)) e ->
  entities2html entities = Raise e.
Proof.
  intros Hf. unfold entities_tags in Hf. rewrite map_of_flat_map in Hf.
  unfold entities2html.
  rewrite for_each_first_failure
    with (K := fun entity => map code (tags entity)) (Q := fun _ => True)
         (e := e);
    [reflexivity| | | |exact Hf].
  - intros entity _ Hok. apply entity2html_returns.
    now apply classified_codes.
  - intros entity _. apply entity2html_first.
  - apply Forall_forall. auto.
Qed.

Lemma table2html_first (navigation : string) (table : Table) (e : exn) :
  first_failure (map code (table_tags table)) e ->
  table2html navigation table = Raise e.
Proof.
  unfold table_tags. rewrite map_app. intros Hf.
  apply first_failure_app in Hf. unfold table2html.
  destruct Hf as [Hh|(Hh & He)].
  - now rewrite (tags2html_first _ e Hh).
  - apply classified_codes in Hh.
    destruct (is_ok_elim _ (tags2html_returns _ Hh)) as (h & ->).
    cbn [bind].
    change (format [] [("name", "TABLE HEADER"); ("tags", h)] ENTITY_TEMPLATE)
      with (Ok (entity_block "TABLE HEADER" h)).
    cbn [bind]. now rewrite (entities2html_first _ e He).
Qed.

Lemma tables2html_first (tables : list Table) (e : exn) :
  first_failure (map code (flat_map table_tags tables)) e ->
  tables2html tables = Raise e.
Proof.
  intros Hf. rewrite map_of_flat_map in Hf. unfold tables2html.
  rewrite for_each_first_failure
    with (K := fun table => map code (table_tags table)) (Q := fun _ => True)
         (e := e);
    [reflexivity| | | |exact Hf].
  - intros table _ Hok. apply table2html_returns. now apply classified_codes.
  - intros table _. apply table2html_first.
  - apply Forall_forall. auto.
Qed.

Lemma block2html_first (b : BlockLayout) (e : exn) :
  first_failure (map code (block_tags b)) e -> block2html b = Raise e.
Proof.
  unfold block_tags. rewrite !map_app. intros Hf.
  apply first_failure_app in Hf. unfold block2html.
  destruct Hf as [H1|(H1 & Hf)].
  - now rewrite (entity2html_first _ e H1).
  - apply classified_codes in H1.
    destruct (is_ok_elim _ (entity2html_returns _ H1)) as (h1 & ->).
    cbn [bind]. apply first_failure_app in Hf.
    destruct Hf as [H2|(H2 & H3)].
    + now rewrite (entities2html_first _ e H2).
    + apply classified_codes in H2.
      destruct (is_ok_elim _ (entities2html_returns _ H2)) as (h2 & ->).
      cbn [bind]. now rewrite (entity2html_first _ e H3).
Qed.

Lemma blocks2html_first (blocks : list BlockLayout) (e : exn) :
  first_failure (map code (flat_map block_tags blocks)) e ->
  blocks2html blocks = Raise e.
Proof.
  intros Hf. rewrite map_of_flat_map in Hf. unfold blocks2html.
  rewrite for_each_first_failure
    with (K := fun b => map code (block_tags b)) (Q := fun _ => True)
         (e := e);
    [reflexivity| | | |exact Hf].
  - intros b _ Hok. apply block2html_returns. now apply classified_codes.
  - intros b _. apply block2html_first.
  - apply Forall_forall. auto.
Qed.

Lemma labelled_codes (v : HeaderVar) :
  labelled v <-> point_fits v /\ Forall code_ok (hdrvar_codes v).
Proof.
  destruct v as [c x|c p]; simpl; split.
  - intros Hc. split; [exact I | now constructor].
  - intros (_ & Hc). now inversion Hc.
  - intros Hp. split; [exact Hp | constructor].
  - tauto.
Qed.

Lemma hdrvars2html_first (hdrvars : list (string * HeaderVar)) (e : exn) :
  Forall point_fits (map snd hdrvars) ->
  first_failure (flat_map (fun item => hdrvar_codes (snd item)) hdrvars) e ->
  hdrvars2html hdrvars = Raise e.
Proof.
  intros Hfit Hf. rewrite Forall_map in Hfit. unfold hdrvars2html.
  rewrite for_each_first_failure
    with (K := fun item : string * HeaderVar => hdrvar_codes (snd item))
         (Q := fun item : string * HeaderVar => point_fits (snd item))
         (e := e);
    [reflexivity| | |exact Hfit|exact Hf].
  - intros item Hq Hok. apply hdrvar2html_returns_iff.
    apply labelled_codes. now split.
  - intros [name [c v|c p]] _ Hc; simpl in Hc.
    + apply first_failure_single in Hc.
      unfold hdrvar2html, var2str. cbn [ispoint hdrvar_value bind].
      change (vartype (ScalarVar c v)) with (tag_type_str c).
      now rewrite Hc.
    + now apply first_failure_nil in Hc.
Qed.

(** A well-shaped section is rendered from its data alone. *)
Lemma section2html_body (section : Section) (template : string) :
  well_shaped section ->
  section2html section template
  = (body <- section_body section ;; format [body] [] template).
Proof.
  intros (_ & Hshape). unfold section_body.
  destruct (section_data section) as [h|es|ts|bs|tags] eqn:Hdata.
  - unfold section2html, section_hdrvars. rewrite Hshape, Hdata.
    reflexivity.
  - unfold section2html, section_entities.
    destruct (String.eqb_spec (section_name section) "header") as [E|_];
      [rewrite E in Hshape; simpl in Hshape;
       repeat (destruct Hshape as [Hshape|Hshape]; try discriminate);
       contradiction|].
    apply known_name in Hshape. now rewrite Hshape, Hdata.
  - unfold section2html, section_tables. rewrite Hshape, Hdata.
    reflexivity.
  - unfold section2html, section_blocks. rewrite Hshape, Hdata.
    reflexivity.
  - rewrite (section2html_other _ _ Hshape). unfold section_tags.
    now rewrite Hdata.
Qed.

Lemma section_body_first (section : Section) (e : exn) :
  Forall point_fits (section_header_vars section) ->
  first_failure (section_codes section) e ->
  section_body section = Raise e.
Proof.
  unfold section_header_vars, section_codes, section_body.
  destruct (section_data section) as [h|es|ts|bs|tags]; intros Hfit Hf.
  - now apply hdrvars2html_first.
  - now apply entities2html_first.
  - now apply tables2html_first.
  - now apply blocks2html_first.
  - now apply tags2html_first.
Qed.

Lemma section_body_returns (section : Section) :
  Forall point_fits (section_header_vars section) ->
  Forall code_ok (section_codes section) ->
  is_ok (section_body section) = true.
Proof.
  unfold section_header_vars, section_codes, section_body.
  destruct (section_data section) as [h|es|ts|bs|tags]; intros Hfit Hok.
  - apply hdrvars2html_labelled. rewrite Forall_map in *.
    apply Forall_flat_map in Hok. rewrite Forall_forall in *.
    intros item Hitem. apply labelled_codes. split; auto.
  - apply entities2html_returns. now apply classified_codes.
  - apply tables2html_returns. now apply classified_codes.
  - apply blocks2html_returns. now apply classified_codes.
  - apply tags2html_returns. now apply classified_codes.
Qed.

Lemma sections2html_first (dwg : Drawing) (e : exn) :
  Forall well_shaped (sections dwg) ->
  Forall point_fits (header_vars dwg) ->
  first_failure (codes_looked_up dwg) e ->
  sections2html dwg = Raise e.
Proof.
  intros Hshape Hfit Hf. unfold sections2html.
  unfold codes_looked_up in Hf.
  rewrite <- (flat_map_enumerate section_codes) in Hf.
  unfold header_vars in Hfit. apply Forall_flat_map in Hfit.
  match goal with
  | |- bind (for_each ?f ?l) _ = _ =>
      assert (E : for_each f l = Raise e)
  end.
  { apply for_each_first_failure
      with (K := fun item : Z * Section => section_codes (snd item))
           (Q := fun item : Z * Section =>
                   well_shaped (snd item)
                   /\ Forall point_fits (section_header_vars (snd item)));
      [| | |exact Hf].
    - intros [i s] (Hs & Hp) Hok. cbn [snd] in *.
      rewrite create_section_html_template_eq. cbn [bind].
      rewrite (section2html_body s _ Hs).
      rewrite filled_wrapper by apply Hs.
      now apply section_body_returns.
    - intros [i s] (Hs & Hp) Hc. cbn [snd] in *.
      rewrite create_section_html_template_eq. cbn [bind].
      rewrite (section2html_body s _ Hs).
      now rewrite (section_body_first s e Hp Hc).
    - apply Forall_forall. intros [i s] Hitem.
      apply enumerate_In in Hitem. destruct Hitem as (_ & Hi).
      apply nth_error_In in Hi. cbn [snd].
      rewrite Forall_forall in Hshape, Hfit. auto. }
  now rewrite E.
Qed.

(** C9: the type label of a tag whose code the type table does not
    have is a raised exception, and nothing between the lookup and the
    caller of [dxf2html] handles it.  The row ends in that exception;
    so does each renderer - of a tag sequence, of entities, of tables, of
    blocks, of the header variables, of the sections and of the document
    - when that lookup is the first of its lookups to fail; and a
    document that renders such a tag anywhere never returns a page. *)
Theorem lookup_failure_propagates (tag : DXFTag) (e : exn) :
  tag_type_str (code tag) = Raise e ->
  tag2html tag = Raise e
  /\ (forall pre post rows,
         for_each tag2html pre = Ok rows ->
         tags2html (pre ++ tag :: post) = Raise e)
  /\ (forall dwg before section after pre post rows,
         sections dwg = (before ++ section :: after)%list ->
         is_ok (sections2html
                  {| filename := filename dwg; sections := before |}) = true ->
         ~ In (section_name section)
             ["header"; "classes"; "objects"; "entities"; "tables";
              "blocks"] ->
         section_data section = TagsData (pre ++ tag :: post) ->
         for_each tag2html pre = Ok rows ->
         dxf2html dwg = Raise e)
  /\ (forall dwg,
         In tag (tags_rendered dwg) -> is_ok (dxf2html dwg) = false)
  /\ (forall before after,
         Forall (fun c => is_ok (tag_type_str c) = true) before ->
         (forall tags,
             map code tags = (before ++ code tag :: after)%list ->
             tags2html tags = Raise e)
         /\ (forall entities,
                map code (entities_tags entities)
                = (before ++ code tag :: after)%list ->
                entities2html entities = Raise e)
         /\ (forall tables,
                map code (flat_map table_tags tables)
                = (before ++ code tag :: after)%list ->
                tables2html tables = Raise e)
         /\ (forall blocks,
                map code (flat_map block_tags blocks)
                = (before ++ code tag :: after)%list ->
                blocks2html blocks = Raise e)
         /\ (forall hdrvars,
                Forall point_fits (map snd hdrvars) ->
                flat_map (fun item => hdrvar_codes (snd item)) hdrvars
                = (before ++ code tag :: after)%list ->
                hdrvars2html hdrvars = Raise e)
         /\ (forall dwg,
                Forall well_shaped (sections dwg) ->
                Forall point_fits (header_vars dwg) ->
                codes_looked_up dwg = (before ++ code tag :: after)%list ->
                sections2html dwg = Raise e /\ dxf2html dwg = Raise e)).
Proof.
  intros Htag.
  pose proof (tag2html_raise tag e Htag) as Hrow.
  split; [exact Hrow|split; [|split; [|split]]].
  - intros pre post rows Hpre. now apply tags2html_raise with (rows := rows).
  - intros dwg before section after pre post rows Hsec Hbefore Hname Hdata
           Hpre.
    apply dxf2html_raise.
    apply (sections2html_raise dwg before after section e Hsec Hbefore).
    rewrite (section2html_other _ _ Hname).
    unfold section_tags. rewrite Hdata. cbn [bind].
    now rewrite (tags2html_raise pre post tag rows e Hpre Hrow).
  - intros dwg Hin.
    destruct (is_ok (dxf2html dwg)) eqn:Hok; [exfalso|reflexivity].
    unfold dxf2html in Hok. apply bind_ok_inv in Hok.
    destruct Hok as (html & Hhtml & _).
    assert (Hall : Forall classified (tags_rendered dwg))
      by (apply sections2html_ok; now rewrite Hhtml).
    rewrite Forall_forall in Hall. specialize (Hall tag Hin).
    unfold classified in Hall. now rewrite Htag in Hall.
  - intros before after Hbefore.
    assert (Hf : forall codes,
               codes = (before ++ code tag :: after)%list ->
               first_failure codes e)
      by (intros codes ->; exists before, (code tag), after; auto).
    split; [|split; [|split; [|split; [|split]]]].
    + intros tags E. now apply tags2html_first, Hf.
    + intros entities E. now apply entities2html_first, Hf.
    + intros tables E. now apply tables2html_first, Hf.
    + intros blocks E. now apply blocks2html_first, Hf.
    + intros hdrvars Hfit E. apply hdrvars2html_first; [exact Hfit|].
      now apply Hf.
    + intros dwg Hshape Hfit E.
      assert (Es : sections2html dwg = Raise e)
        by (apply sections2html_first; auto).
      split; [exact Es | now apply dxf2html_raise].
Qed.

End FirstFailure.

(** * The renderers on the example documents *)

#[local] Existing Instance example_collaborators.

Lemma tag2html_rows_witness :
  tag_type_str 5 = Ok "<str>"
  /\ tag2html (dxftag 5 (VStr "2A"))
     = Ok (py "<div class='dxf-tag'><span id='2A' class='tag-code'>5</span> <span class='var-type'>&lt;str&gt;</span> <span class='tag-value'>2A</span></div>")
  /\ tag2html (dxftag 330 (VStr "1F"))
     = Ok (py "<div class='dxf-tag'><span class='tag-code'>330 &lt;str&gt;</span> <a class='tag-value' href='#1F'>1F</a></div>")
  /\ tag2html (dxftag 1 (VStr "a<b>&c"))
     = Ok (py "<div class='dxf-tag'><span class='tag-code'>1</span> <span class='var-type'>&lt;str&gt;</span> <span class='tag-value'>a&lt;b&gt;&amp;c</span></div>").
Proof.
  assert (L5 : tag_type_str (code (dxftag 5 (VStr "2A"))) = Ok "<str>")
    by (vm_compute; reflexivity).
  assert (L330 : tag_type_str (code (dxftag 330 (VStr "1F"))) = Ok "<str>")
    by (vm_compute; reflexivity).
  assert (L1 : tag_type_str (code (dxftag 1 (VStr "a<b>&c"))) = Ok "<str>")
    by (vm_compute; reflexivity).
  split; [exact L5|].
  pose proof (tag2html_rows _ _ L5) as W5.
  pose proof (tag2html_rows _ _ L330) as W330.
  pose proof (tag2html_rows _ _ L1) as W1.
  cbv zeta in W5, W330, W1.
  destruct W5 as (Hd & _), W330 as (_ & Hl & _), W1 as (_ & _ & Hp & _).
  assert (M5 : mem (code (dxftag 5 (VStr "2A"))) HANDLE_DEFINITIONS = true)
    by (vm_compute; reflexivity).
  assert (M330 : mem (code (dxftag 330 (VStr "1F"))) HANDLE_LINKS = true)
    by (vm_compute; reflexivity).
  assert (M1 : mem (code (dxftag 1 (VStr "a<b>&c"))) HANDLE_DEFINITIONS = false)
    by (vm_compute; reflexivity).
  assert (M1' : mem (code (dxftag 1 (VStr "a<b>&c"))) HANDLE_LINKS = false)
    by (vm_compute; reflexivity).
  specialize (Hd M5). specialize (Hl M330). specialize (Hp M1 M1').
  split; [evaluated Hd|]. split; [evaluated Hl | evaluated Hp].
Defined.

Lemma tag2html_escapes_witness :
  tag_type_str 1 = Ok "<str>"
  /\ tag2html (dxftag 1 (VStr "a<b>&c"))
     = Ok (plain_row "1" "&lt;str&gt;" "a&lt;b&gt;&amp;c")
  /\ markup_free (escape (ustr (VStr "a<b>&c"))) = true.
Proof.
  assert (L1 : tag_type_str (code (dxftag 1 (VStr "a<b>&c"))) = Ok "<str>")
    by (vm_compute; reflexivity).
  split; [exact L1|].
  pose proof (tag2html_escapes _ _ L1) as W.
  cbv zeta in W. destruct W as (_ & Hrow & _ & _ & Hfree & _).
  split; [evaluated Hrow | evaluated Hfree].
Defined.

Lemma tags2html_group_markers_witness :
  for_each tag2html [dxftag 0 (VStr "LINE"); dxftag 62 (VInt 7)]
  = Ok [plain_row "0" "&lt;str&gt;" "LINE"; plain_row "62" "&lt;int&gt;" "7"]
  /\ tags2html [dxftag 0 (VStr "LINE"); dxftag 62 (VInt 7)]
     = Ok (py "<div class='dxf-tags'>\n"
           ++ py "<div class='tag-group-marker'>"
           ++ plain_row "0" "&lt;str&gt;" "LINE" ++ py "</div>" ++ py "\n"
           ++ plain_row "62" "&lt;int&gt;" "7" ++ py "\n</div>").
Proof.
  assert (Hrows :
            for_each tag2html [dxftag 0 (VStr "LINE"); dxftag 62 (VInt 7)]
            = Ok [plain_row "0" "&lt;str&gt;" "LINE";
                  plain_row "62" "&lt;int&gt;" "7"])
    by (vm_compute; reflexivity).
  split; [exact Hrows|].
  pose proof (proj2 (tags2html_group_markers _ _ Hrows)) as W.
  evaluated W.
Defined.

(** C5, as the claim has it, fails: a section of no known kind can
    raise.  The wrapper of a section named [a}b] is no format text that
    takes the body, and a tag without a type label ends the rendering of
    the tags. *)
Lemma unknown_kind_raises_counterexample :
  ~ In (section_name braced_section)
      ["header"; "classes"; "objects"; "entities"; "tables"; "blocks"]
  /\ (exists tpl,
         create_section_html_template (section_name braced_section) 0 = Ok tpl
         /\ section2html braced_section tpl = Raise ValueError)
  /\ dxf2html {| filename := None; sections := [braced_section] |}
     = Raise ValueError
  /\ ~ In (section_name unknown_section)
         ["header"; "classes"; "objects"; "entities"; "tables"; "blocks"]
  /\ (exists tpl,
         create_section_html_template (section_name unknown_section) 0 = Ok tpl
         /\ section2html unknown_section tpl = Raise ValueError).
Proof.
  split; [|split; [|split; [|split]]].
  - simpl. intros [E|[E|[E|[E|[E|[E|[]]]]]]]; discriminate E.
  - eexists. split; [apply create_section_html_template_eq|].
    vm_compute. reflexivity.
  - vm_compute. reflexivity.
  - simpl. intros [E|[E|[E|[E|[E|[E|[]]]]]]]; discriminate E.
  - eexists. split; [apply create_section_html_template_eq|].
    vm_compute. reflexivity.
Qed.

Lemma section2html_dispatch_witness :
  ~ In "thumbnailimage"
      ["header"; "classes"; "objects"; "entities"; "tables"; "blocks"]
  /\ section2html
       {| section_name := "thumbnailimage";
          section_data := TagsData [dxftag 90 (VInt 1)] |}
       (section_template "THUMBNAILIMAGE" 2)
     = Ok (section_block "THUMBNAILIMAGE" 2
             (tags_block [plain_row "90" "&lt;int&gt;" "1"])).
Proof.
  assert (Hn : ~ In "thumbnailimage"
                 ["header"; "classes"; "objects"; "entities"; "tables";
                  "blocks"]).
  { simpl. intros [E|[E|[E|[E|[E|[E|[]]]]]]]; discriminate E. }
  split; [exact Hn|].
  pose proof (section2html_dispatch
                {| section_name := "thumbnailimage";
                   section_data := TagsData [dxftag 90 (VInt 1)] |}) as W.
  cbv zeta in W. destruct W as (_ & _ & _ & _ & Hother).
  destruct (Hother Hn) as (_ & Hok).
  assert (Hbody : tags2html [dxftag 90 (VInt 1)]
                  = Ok (tags_block [plain_row "90" "&lt;int&gt;" "1"]))
    by (vm_compute; reflexivity).
  assert (Htpl : create_section_html_template "thumbnailimage" 2
                 = Ok (section_template "THUMBNAILIMAGE" 2))
    by (vm_compute; reflexivity).
  assert (Hfree : brace_free (upper "thumbnailimage") = true)
    by (vm_compute; reflexivity).
  pose proof (Hok _ _ _ _ eq_refl Hbody Hfree Htpl) as R.
  evaluated R.
Defined.

Lemma hdrvars2html_rows_witness :
  hdrvar2html ("$LIMMAX", PointVar 10 [NFloat "420.0"; NFloat "297.0"])
  = Ok (plain_row "$LIMMAX" "&lt;point 2D&gt;" "(420.0, 297.0)")
  /\ hdrvar2html ("$HANDSEED", ScalarVar 5 (VStr "FF"))
     = Ok (plain_row "$HANDSEED" "&lt;str&gt;" "FF").
Proof.
  destruct hdrvars2html_rows as (H2 & _ & Hs & _).
  assert (L5 : tag_type_str 5 = Ok "<str>") by (vm_compute; reflexivity).
  pose proof (H2 "$LIMMAX" 10 [NFloat "420.0"; NFloat "297.0"] eq_refl) as R2.
  pose proof (Hs "$HANDSEED" 5 (VStr "FF") "<str>" L5) as Rs.
  split; [evaluated R2 | evaluated Rs].
Defined.

Lemma section_wrapper_navigation_witness :
  nth_error (sections example_drawing) 0
  = Some {| section_name := "header"; section_data := HeaderData example_header |}
  /\ create_section_html_template "header" 0
     = Ok (py "<div id='section_0' class='dxf-section'><h2>SECTION: HEADER</h2>\n<div><a href='#section_-1'>previous</a> <a href='#section_1'>next</a></div>\n{}\n</div>\n").
Proof.
  assert (H0 : nth_error (sections example_drawing) 0
               = Some {| section_name := "header";
                         section_data := HeaderData example_header |})
    by reflexivity.
  split; [exact H0|].
  pose proof (proj1 (section_wrapper_navigation _ _ _ H0)) as W.
  evaluated W.
Defined.

(** C7, as the claim has it, fails twice.  The wrapper of the first
    section of a document has no link to its own anchor: the strip is
    not one of three links.  And the anchor [section_-1] its previous
    link goes to can exist in the page: a handle definition with that
    text carries it as its [id]. *)
Lemma three_link_strip_counterexample :
  ~ (exists tpl,
        create_section_html_template "header" 0 = Ok tpl
        /\ has_link tpl (section_id (0 - 1))
        /\ has_link tpl (section_id 0)
        /\ has_link tpl (section_id (0 + 1)))
  /\ (exists page,
         dxf2html anchored_drawing = Ok page
         /\ has_anchor page (section_id (0 - 1))).
Proof.
  split.
  - intros (tpl & Htpl & _ & Hthis & _).
    rewrite create_section_html_template_eq in Htpl. injection Htpl as <-.
    apply has_link_contains in Hthis. revert Hthis. vm_compute. discriminate.
  - eexists. split; [vm_compute; reflexivity|].
    apply has_anchor_intro. vm_compute. reflexivity.
Qed.

Lemma lookup_failure_propagates_witness :
  tag_type_str (code unknown_tag) = Raise ValueError
  /\ tags2html [dxftag 0 (VStr "X"); unknown_tag] = Raise ValueError
  /\ dxf2html broken_drawing = Raise ValueError
  /\ is_ok (dxf2html broken_drawing) = false
  /\ dxf2html broken_tables_drawing = Raise ValueError.
Proof.
  assert (L : tag_type_str (code unknown_tag) = Raise ValueError)
    by (vm_compute; reflexivity).
  split; [exact L|].
  destruct (lookup_failure_propagates unknown_tag ValueError L)
    as (_ & Htags & Hdoc & Hnever & Hfirst).
  assert (Hpre : for_each tag2html [dxftag 0 (VStr "X")]
                 = Ok [plain_row "0" "&lt;str&gt;" "X"])
    by (vm_compute; reflexivity).
  split; [|split; [|split]].
  - exact (Htags [dxftag 0 (VStr "X")] [] _ Hpre).
  - refine (Hdoc broken_drawing
              [{| section_name := "entities";
                  section_data := EntityData [line_entity] |}]
              {| section_name := "acdsdata";
                 section_data := TagsData [dxftag 0 (VStr "X"); unknown_tag] |}
              [] [dxftag 0 (VStr "X")] [] _ eq_refl _ _ eq_refl Hpre).
    + vm_compute. reflexivity.
    + simpl. intros [E|[E|[E|[E|[E|[E|[]]]]]]]; discriminate E.
  - apply Hnever. vm_compute. tauto.
  - assert (Hbefore : Forall (fun c => is_ok (tag_type_str c) = true)
                        [1; 5; 0; 5; 330; 100; 10; 62; 1; 0; 70; 0])
      by (repeat constructor; vm_compute; reflexivity).
    destruct (Hfirst [1; 5; 0; 5; 330; 100; 10; 62; 1; 0; 70; 0] [2000]
                Hbefore) as (_ & _ & _ & _ & _ & Hdwg).
    assert (Hshape : Forall well_shaped (sections broken_tables_drawing)).
    { unfold broken_tables_drawing. cbn [sections].
      constructor; [|constructor; [|constructor; [|constructor]]];
        (split; [vm_compute; reflexivity|]); cbn [section_data section_name].
      - reflexivity.
      - simpl. tauto.
      - reflexivity. }
    assert (Hfit : Forall point_fits (header_vars broken_tables_drawing)).
    { unfold header_vars, broken_tables_drawing, example_header. simpl.
      repeat constructor. }
    assert (Hcodes : codes_looked_up broken_tables_drawing
                     = ([1; 5; 0; 5; 330; 100; 10; 62; 1; 0; 70; 0]
                        ++ code unknown_tag :: [2000])%list)
      by (vm_compute; reflexivity).
    exact (proj2 (Hdwg broken_tables_drawing Hshape Hfit Hcodes)).
Defined.

Lemma names_not_escaped_witness :
  tags2html (tags markup_entity)
  = Ok (tags_block [handle_def_row "5" "&lt;str&gt;" "2B"])
  /\ entity2html markup_entity
     = Ok (py "<div class='dxf-entity'><h3><b>&</h3>\n"
           ++ tags_block [handle_def_row "5" "&lt;str&gt;" "2B"]
           ++ py "\n</div>").
Proof.
  assert (Hbody : tags2html (tags markup_entity)
                  = Ok (tags_block [handle_def_row "5" "&lt;str&gt;" "2B"]))
    by (vm_compute; reflexivity).
  split; [exact Hbody|].
  pose proof (proj1 names_not_escaped markup_entity _ Hbody) as W.
  evaluated W.
Defined.

(** ** More examples *)

Lemma marker_rows_are_plain_witness :
  tag_type_str (code (dxftag 100 (VStr "AcDbLine"))) = Ok "<str>"
  /\ tags2html [dxftag 100 (VStr "AcDbLine")]
     = Ok (py "<div class='dxf-tags'>\n"
           ++ py "<div class='tag-group-marker'>"
           ++ plain_row "100" "&lt;str&gt;" "AcDbLine"
           ++ py "</div>" ++ py "\n</div>").
Proof.
  assert (L : tag_type_str (code (dxftag 100 (VStr "AcDbLine"))) = Ok "<str>")
    by (vm_compute; reflexivity).
  split; [exact L|].
  pose proof (marker_rows_are_plain _ _ L) as W. cbv zeta in W.
  destruct W as (Hm & _).
  assert (M : mem (code (dxftag 100 (VStr "AcDbLine"))) GROUP_MARKERS = true)
    by (vm_compute; reflexivity).
  specialize (Hm M). evaluated Hm.
Defined.

Lemma handle_link_meets_definition_witness :
  mem (code (dxftag 5 (VStr "42"))) HANDLE_DEFINITIONS = true
  /\ mem (code (dxftag 330 (VInt 42))) HANDLE_LINKS = true
  /\ ustr (value (dxftag 5 (VStr "42"))) = ustr (value (dxftag 330 (VInt 42)))
  /\ exists anchor,
      anchor = escape (ustr (value (dxftag 330 (VInt 42))))
      /\ has_anchor (handle_def_row "5" "&lt;str&gt;" "42") anchor
      /\ has_href (handle_link_row "330" "&lt;str&gt;" "42") anchor.
Proof.
  assert (Hd : mem (code (dxftag 5 (VStr "42"))) HANDLE_DEFINITIONS = true)
    by (vm_compute; reflexivity).
  assert (Hl : mem (code (dxftag 330 (VInt 42))) HANDLE_LINKS = true)
    by (vm_compute; reflexivity).
  assert (Hv : ustr (value (dxftag 5 (VStr "42")))
               = ustr (value (dxftag 330 (VInt 42))))
    by (vm_compute; reflexivity).
  assert (Hrd : tag2html (dxftag 5 (VStr "42"))
                = Ok (handle_def_row "5" "&lt;str&gt;" "42"))
    by (vm_compute; reflexivity).
  assert (Hrl : tag2html (dxftag 330 (VInt 42))
                = Ok (handle_link_row "330" "&lt;str&gt;" "42"))
    by (vm_compute; reflexivity).
  split; [exact Hd|]. split; [exact Hl|]. split; [exact Hv|].
  exact (handle_link_meets_definition _ _ _ _ Hd Hl Hv Hrd Hrl).
Defined.

Lemma entities2html_blocks_witness :
  Forall2 (fun entity body => tags2html (tags entity) = Ok body)
    [ {| dxftype := "LINE"; tags := [dxftag 62 (VInt 7)] |};
      {| dxftype := "POINT"; tags := [] |} ]
    [ tags_block [plain_row "62" "&lt;int&gt;" "7"]; tags_block [] ]
  /\ entities2html
       [ {| dxftype := "LINE"; tags := [dxftag 62 (VInt 7)] |};
         {| dxftype := "POINT"; tags := [] |} ]
     = Ok (entities_block
             [ entity_block "LINE"
                 (tags_block [plain_row "62" "&lt;int&gt;" "7"]);
               entity_block "POINT" (tags_block []) ]).
Proof.
  assert (Hb : Forall2 (fun entity body => tags2html (tags entity) = Ok body)
                 [ {| dxftype := "LINE"; tags := [dxftag 62 (VInt 7)] |};
                   {| dxftype := "POINT"; tags := [] |} ]
                 [ tags_block [plain_row "62" "&lt;int&gt;" "7"];
                   tags_block [] ])
    by (repeat constructor; vm_compute; reflexivity).
  split; [exact Hb|].
  pose proof (entities2html_blocks _ _ Hb) as W. evaluated W.
Defined.

Lemma tables2html_blocks_witness :
  Forall2 (fun table part =>
             tags2html (_table_header table) = Ok (fst part)
             /\ entities2html (table_entries table) = Ok (snd part))
    [ {| table_name := "layer"; _table_header := [dxftag 70 (VInt 1)];
         table_entries := [] |} ]
    [ (tags_block [plain_row "70" "&lt;int&gt;" "1"], entities_block []) ]
  /\ tables2html
       [ {| table_name := "layer"; _table_header := [dxftag 70 (VInt 1)];
            table_entries := [] |} ]
     = Ok (tables_block
             [ table_block "LAYER" EmptyString
                 (entity_block "TABLE HEADER"
                    (tags_block [plain_row "70" "&lt;int&gt;" "1"]))
                 (entities_block []) ]).
Proof.
  assert (Hp : Forall2 (fun table part =>
                          tags2html (_table_header table) = Ok (fst part)
                          /\ entities2html (table_entries table)
                             = Ok (snd part))
                 [ {| table_name := "layer";
                      _table_header := [dxftag 70 (VInt 1)];
                      table_entries := [] |} ]
                 [ (tags_block [plain_row "70" "&lt;int&gt;" "1"],
                    entities_block []) ])
    by (repeat constructor; vm_compute; reflexivity).
  split; [exact Hp|].
  pose proof (tables2html_blocks _ _ Hp) as W. evaluated W.
Defined.

Lemma blocks2html_blocks_witness :
  Forall2 (fun b part =>
             entity2html (block b) = Ok (fst (fst part))
             /\ entities2html (block_entities b) = Ok (snd (fst part))
             /\ entity2html (endblk b) = Ok (snd part))
    [ {| block_name := "*Model_Space";
         block := {| dxftype := "BLOCK"; tags := [] |};
         block_entities := [];
         endblk := {| dxftype := "ENDBLK"; tags := [] |} |} ]
    [ (entity_block "BLOCK" (tags_block []), entities_block [],
       entity_block "ENDBLK" (tags_block [])) ]
  /\ blocks2html
       [ {| block_name := "*Model_Space";
            block := {| dxftype := "BLOCK"; tags := [] |};
            block_entities := [];
            endblk := {| dxftype := "ENDBLK"; tags := [] |} |} ]
     = Ok (blocks_block
             [ block_block "*Model_Space"
                 (entity_block "BLOCK" (tags_block [])) (entities_block [])
                 (entity_block "ENDBLK" (tags_block [])) ]).
Proof.
  assert (Hp : Forall2 (fun b part =>
                          entity2html (block b) = Ok (fst (fst part))
                          /\ entities2html (block_entities b)
                             = Ok (snd (fst part))
                          /\ entity2html (endblk b) = Ok (snd part))
                 [ {| block_name := "*Model_Space";
                      block := {| dxftype := "BLOCK"; tags := [] |};
                      block_entities := [];
                      endblk := {| dxftype := "ENDBLK"; tags := [] |} |} ]
                 [ (entity_block "BLOCK" (tags_block []), entities_block [],
                    entity_block "ENDBLK" (tags_block [])) ])
    by (repeat constructor; vm_compute; reflexivity).
  split; [exact Hp|].
  pose proof (blocks2html_blocks _ _ Hp) as W. evaluated W.
Defined.

Lemma section_title_is_format_text_witness :
  brace_free "A" = true
  /\ upper "a}b" = "A" ++ "}" ++ "B"
  /\ String.prefix "}" "B" = false
  /\ create_section_html_template "a}b" 0 = Ok (section_template "A}B" 0)
  /\ format ["body"] [] (section_template "A}B" 0) = Raise ValueError.
Proof.
  assert (Hpre : brace_free "A" = true) by (vm_compute; reflexivity).
  assert (Hname : upper "a}b" = "A" ++ "}" ++ "B") by (vm_compute; reflexivity).
  assert (Hpost : String.prefix "}" "B" = false) by (vm_compute; reflexivity).
  assert (Htpl : create_section_html_template "a}b" 0
                 = Ok (section_template "A}B" 0))
    by (vm_compute; reflexivity).
  split; [exact Hpre|]. split; [exact Hname|]. split; [exact Hpost|].
  split; [exact Htpl|].
  destruct (section_title_is_format_text "a}b" 0 "body" "A" "B" Hpre)
    as (Hclose & _).
  destruct (Hclose Hname Hpost) as (E & _).
  exact (E _ Htpl).
Defined.

Lemma dxf2html_no_sections_witness :
  sections {| filename := Some "/tmp/plan.dxf"; sections := [] |} = []
  /\ dxf2html {| filename := Some "/tmp/plan.dxf"; sections := [] |}
     = Ok (html_page "plan" (py "<h2>Table of Contents</h2>\n<ul>\n\n</ul>")
             (py "<div class='dxf-sections'>\n\n</div>")).
Proof.
  split; [reflexivity|].
  pose proof (dxf2html_no_sections
                {| filename := Some "/tmp/plan.dxf"; sections := [] |}
                eq_refl) as W.
  evaluated W.
Defined.

Lemma dxf2html_returns_iff_witness :
  Forall well_shaped (sections example_drawing)
  /\ Forall labelled (header_vars example_drawing)
  /\ Forall (fun tag => is_ok (tag_type_str (code tag)) = true)
       (tags_rendered example_drawing)
  /\ is_ok (dxf2html example_drawing) = true.
Proof.
  assert (Hshape : Forall well_shaped (sections example_drawing)).
  { unfold example_drawing. cbn [sections].
    constructor; [|constructor; [|constructor; [|constructor]]];
      (split; [vm_compute; reflexivity|]); cbn [section_data section_name].
    - reflexivity.
    - simpl. tauto.
    - simpl. intros [E|[E|[E|[E|[E|[E|[]]]]]]]; discriminate E. }
  assert (Hok : is_ok (dxf2html example_drawing) = true)
    by (vm_compute; reflexivity).
  destruct (proj1 (dxf2html_returns_iff example_drawing Hshape) Hok)
    as (Htags & Hvars).
  split; [exact Hshape|]. split; [exact Hvars|]. split; [exact Htags|].
  exact Hok.
Defined.
